(** * Nola Analytics minimal backend: the [/query] compiler of [backend/main.py]

    A shallow embedding of the schema cache ([TABLE_CACHE], [get_table]),
    the predicate compiler ([_apply_filter_clause]) and the [/query]
    handler ([query]) of [src/backend/main.py].

    Modelling conventions.
    - A Python [str] is the [string] of its UTF-8 bytes, on which [==],
      [in], [count] and concatenation agree with Python's; [int] is [Z].
      [str.lower], and the builtin [str] on arbitrary JSON values, are
      parameters of the compiler.
    - SQLAlchemy expression objects are syntax trees.  A column operator
      applied to a Python value follows the library's coercion: a value
      becomes a bound parameter, except that [None], [True] and [False]
      under [==] and [!=] become the constants [NULL], [true], [false]
      ([IS NULL], [IS NOT NULL]) and under an ordering operator make the
      library raise [ArgumentError]; [None] inside an [in_] list becomes
      [NULL]; [.limit(n)] binds [n].  [text(g)] is a literal SQL fragment.
    - [raise HTTPException(...)] and the exceptions of the library are the
      [Raise] case of an error monad; an exception no [try] catches leaves
      the handler.  The module-level dict [TABLE_CACHE] is threaded
      explicitly; reflection and statement execution leave events on an
      I/O trace.  The database is a parameter. *)

From Stdlib Require Import ZArith Ascii String DecimalString List Bool.
From stdpp Require Import base option strings gmap list.
Import ListNotations.

Set Warnings "-register-all".
Local Open Scope string_scope.
Local Open Scope Z_scope.
Local Open Scope list_scope.

(** ** Python strings *)

Module PyStr.

(** [str.lower] on ASCII text: [A-Z] move up by 32, every other byte is
    kept.  This is the instance the examples run with; the compiler takes
    [str.lower] as a parameter. *)
Definition lower_char (c : ascii) : ascii :=
  let n := N_of_ascii c in
  if ((65 <=? n) && (n <=? 90))%N then ascii_of_N (n + 32) else c.

Fixpoint lower (s : string) : string :=
  match s with
  | EmptyString => EmptyString
  | String c s' => String (lower_char c) (lower s')
  end.

(** [sub in s] *)
Fixpoint contains (sub s : string) : bool :=
  String.prefix sub s
  || match s with
     | EmptyString => false
     | String _ s' => contains sub s'
     end.

(** [s.count(sub)]: the number of non-overlapping occurrences, scanning from
    the left; [skip] characters of the last match are still to be passed. *)
Fixpoint count_from (sub s : string) (skip : nat) : nat :=
  match s with
  | EmptyString => 0%nat
  | String _ s' =>
      match skip with
      | S k => count_from sub s' k
      | O => if String.prefix sub s
             then S (count_from sub s' (String.length sub - 1))
             else count_from sub s' 0%nat
      end
  end.

Definition count (s sub : string) : nat :=
  match sub with
  | EmptyString => S (String.length s)
  | _ => count_from sub s 0%nat
  end.

(** Truthiness of an [Optional[str]]: [None] and [""] are falsy. *)
Definition truthy (o : option string) : bool :=
  match o with
  | Some (String _ _) => true
  | _ => false
  end.

(** [o or default] for an [Optional[str]] *)
Definition or_else (o : option string) (default : string) : string :=
  match o with
  | Some (String c s) => String c s
  | _ => default
  end.

End PyStr.

(** ** Values and request models *)

(** A JSON value as pydantic hands it over for a field typed [Any]. A float
    is kept as its IEEE-754 binary64 bit pattern. *)
Inductive value : Type :=
| VNone
| VBool (b : bool)
| VInt (n : Z)
| VFloat (bits : N)
| VStr (s : string)
| VList (items : list value)
| VDict (items : list (string * value)).

(** [isinstance(v, list)] *)
Definition is_list (v : value) : bool :=
  match v with
  | VList _ => true
  | _ => false
  end.

(** [v is None], and [isinstance(v, (NoneType, bool))]. *)
Definition is_none (v : value) : bool :=
  match v with
  | VNone => true
  | _ => false
  end.

Definition is_none_or_bool (v : value) : bool :=
  match v with
  | VNone | VBool _ => true
  | _ => false
  end.

(** Whether [hash(v)] succeeds: lists and dicts are unhashable. *)
Definition hashable (v : value) : bool :=
  match v with
  | VList _ | VDict _ => false
  | _ => true
  end.

(** The items of a list value. *)
Definition list_items (v : value) : list value :=
  match v with
  | VList items => items
  | _ => []
  end.

(** [class Metric(BaseModel)] *)
Record Metric : Type := mkMetric {
  m_op : string;
  m_column : option string;
  m_alias : option string
}.

(** [class FilterItem(BaseModel)] *)
Record FilterItem : Type := mkFilterItem {
  f_column : string;
  f_op : string;
  f_value : value
}.

(** [class QueryRequest(BaseModel)], after validation. *)
Record QueryRequest : Type := mkQueryRequest {
  table : string;
  group_by : option (list string);
  metrics : option (list Metric);
  filters : option (list FilterItem);
  limit : option Z
}.

(** A keyword argument of a model constructor: left out of the request body,
    or given (possibly as JSON [null]). *)
Inductive field (A : Type) : Type :=
| Omitted
| Given (a : A).
Arguments Omitted {A}.
Arguments Given {A} a.

Definition field_default {A : Type} (default : A) (f : field A) : A :=
  match f with
  | Omitted => default
  | Given a => a
  end.

(** Construction of a [QueryRequest] from a body: the class defaults are
    [group_by = None], [metrics = None], [filters = None], [limit = 1000]. *)
Definition QueryRequest_init
    (tbl : string)
    (gb : field (option (list string)))
    (ms : field (option (list Metric)))
    (fs : field (option (list FilterItem)))
    (lim : field (option Z)) : QueryRequest :=
  {| table := tbl;
     group_by := field_default None gb;
     metrics := field_default None ms;
     filters := field_default None fs;
     limit := field_default (Some 1000) lim |}.

(** ** Reflected tables and SQL expression trees *)

Record Column : Type := mkColumn {
  col_name : string;
  col_type : string
}.

(** A reflected [sqlalchemy.Table]: its name and its ordered columns. *)
Record Table : Type := mkTable {
  tbl_name : string;
  tbl_columns : list Column
}.

(** [tbl.c.get(name)] *)
Definition c_get (tbl : Table) (name : string) : option Column :=
  List.find (fun c => String.eqb (col_name c) name) (tbl_columns tbl).

Inductive operator : Type :=
| op_eq | op_ne | op_gt | op_lt | op_ge | op_le | op_in | op_like
| op_is | op_is_not.

Inductive expr : Type :=
| EColumn (c : Column)                          (* a column of the table *)
| ENone                                         (* Python [None] as an argument *)
| EText (sql : string)                          (* [text(sql)] *)
| EBind (v : value)                             (* a value given to a column operator *)
| EBinary (op : operator) (l r : expr)          (* [l <op> r] *)
| EFunc (name : string) (arg : option expr)     (* [func.name()] / [func.name(arg)] *)
| ELabel (e : expr) (alias : string)            (* [e.label(alias)] *)
| ENull                                         (* the constant [NULL] *)
| ETrue                                         (* the constant [true] *)
| EFalse                                        (* the constant [false] *)
| EList (items : list expr).                    (* a list of expressions *)

(** The caller-supplied strings that enter an expression as literal SQL. *)
Fixpoint text_fragments (e : expr) : list string :=
  match e with
  | EColumn _ | ENone | EBind _ => []
  | EText s => [s]
  | EBinary _ l r => text_fragments l ++ text_fragments r
  | EFunc _ None => []
  | EFunc _ (Some a) => text_fragments a
  | ELabel e' _ => text_fragments e'
  | ENull | ETrue | EFalse => []
  | EList items => flat_map text_fragments items
  end.

(** The values an expression carries as bound parameters, left to right. *)
Fixpoint bound_values (e : expr) : list value :=
  match e with
  | EColumn _ | ENone | EText _ => []
  | EBind v => [v]
  | EBinary _ l r => bound_values l ++ bound_values r
  | EFunc _ None => []
  | EFunc _ (Some a) => bound_values a
  | ELabel e' _ => bound_values e'
  | ENull | ETrue | EFalse => []
  | EList items => flat_map bound_values items
  end.

(** The expression with every bound value blanked: all that the statement
    text can depend on. *)
Fixpoint skeleton (e : expr) : expr :=
  match e with
  | EBind _ => EBind VNone
  | EBinary op l r => EBinary op (skeleton l) (skeleton r)
  | EFunc f (Some a) => EFunc f (Some (skeleton a))
  | ELabel e' a => ELabel (skeleton e') a
  | EList items => EList (List.map skeleton items)
  | _ => e
  end.

(** A [select(...)] statement as [query] assembles it. *)
Record Statement : Type := mkStatement {
  sel_list : list expr;
  from_table : Table;
  where_clauses : list expr;
  group_by_clause : list expr;
  limit_clause : option Z
}.

(** [select] over the columns [cols], then [.select_from(tbl)] *)
Definition select_from (cols : list expr) (tbl : Table) : Statement :=
  {| sel_list := cols;
     from_table := tbl;
     where_clauses := [];
     group_by_clause := [];
     limit_clause := None |}.

(** [stmt.where(c)]: one more conjunct. *)
Definition stmt_where (stmt : Statement) (c : expr) : Statement :=
  {| sel_list := sel_list stmt;
     from_table := from_table stmt;
     where_clauses := where_clauses stmt ++ [c];
     group_by_clause := group_by_clause stmt;
     limit_clause := limit_clause stmt |}.

(** [stmt.group_by] over the columns [cols] *)
Definition stmt_group_by (stmt : Statement) (cols : list expr) : Statement :=
  {| sel_list := sel_list stmt;
     from_table := from_table stmt;
     where_clauses := where_clauses stmt;
     group_by_clause := group_by_clause stmt ++ cols;
     limit_clause := limit_clause stmt |}.

(** [stmt.limit(n)] *)
Definition stmt_limit (stmt : Statement) (n : option Z) : Statement :=
  {| sel_list := sel_list stmt;
     from_table := from_table stmt;
     where_clauses := where_clauses stmt;
     group_by_clause := group_by_clause stmt;
     limit_clause := n |}.

(** A labelled function call: an aggregate of the select list. *)
Definition is_aggregate (e : expr) : bool :=
  match e with
  | ELabel (EFunc _ _) _ => true
  | _ => false
  end.

(** ** Exceptions *)

(** [fastapi.HTTPException(status_code, detail)] *)
Record HTTPException : Type := mkHTTPException {
  status_code : Z;
  detail : string
}.

(** Any exception of the database layer; [message] is its [str(e)]. *)
Record DBError : Type := mkDBError {
  message : string
}.

Inductive result (E A : Type) : Type :=
| Ok (a : A)
| Raise (e : E).
Arguments Ok {E A} a.
Arguments Raise {E A} e.

Definition bind {E A B : Type} (m : result E A) (k : A -> result E B)
  : result E B :=
  match m with
  | Ok a => k a
  | Raise e => Raise e
  end.

Notation "x <- m ;; k" := (bind m (fun x => k))
  (at level 100, m at next level, right associativity).

(** A loop or comprehension over a list whose body may raise: the first
    exception ends it. *)
Fixpoint map_result {E A B : Type} (f : A -> result E B) (l : list A)
  : result E (list B) :=
  match l with
  | [] => Ok []
  | a :: l' =>
      b <- f a ;;
      bs <- map_result f l' ;;
      Ok (b :: bs)
  end.

Definition is_ok {E A : Type} (r : result E A) : bool :=
  match r with
  | Ok _ => true
  | Raise _ => false
  end.

(** An exception raised inside the library while an expression is built:
    [sqlalchemy.exc.ArgumentError], or the builtin [TypeError]. *)
Inductive LibraryError : Type :=
| ArgumentError
| TypeError.

(** What the compiling part of [query] can raise: an [HTTPException] of its
    own, or an exception of the library, which no [try] of [main.py]
    catches. *)
Inductive raised : Type :=
| Http (e : HTTPException)
| Unhandled (e : LibraryError).

Definition lift_http {A : Type} (r : result HTTPException A) : result raised A :=
  match r with
  | Ok a => Ok a
  | Raise e => Raise (Http e)
  end.

Definition lift_library {A : Type} (r : result LibraryError A) : result raised A :=
  match r with
  | Ok a => Ok a
  | Raise e => Raise (Unhandled e)
  end.

(** ** The library's column operators *)

(** [col == v], [col != v], [col > v], [col < v], [col >= v], [col <= v]
    for a Python value [v]: [None] compares with [IS] or [IS NOT], a boolean
    stays a constant under [==] and [!=], any other value is bound; [None]
    and booleans are refused under the ordering operators. *)
Definition column_compare (o : operator) (col : Column) (v : value)
  : result LibraryError expr :=
  match v with
  | VNone =>
      match o with
      | op_eq => Ok (EBinary op_is (EColumn col) ENull)
      | op_ne => Ok (EBinary op_is_not (EColumn col) ENull)
      | _ => Raise ArgumentError
      end
  | VBool b =>
      match o with
      | op_eq | op_ne =>
          Ok (EBinary o (EColumn col) (if b then ETrue else EFalse))
      | _ => Raise ArgumentError
      end
  | _ => Ok (EBinary o (EColumn col) (EBind v))
  end.

(** [col.in_(items)] for a Python list: the whole list is one bound
    parameter, unless it holds a [None]; then each item stands by itself,
    [None] as [NULL] and any other as a bound parameter, found by a
    dictionary lookup that an unhashable item fails with [TypeError]. *)
Definition column_in (col : Column) (items : list value)
  : result LibraryError expr :=
  if existsb is_none items then
    if forallb hashable items then
      Ok (EBinary op_in (EColumn col)
            (EList (List.map (fun o => if is_none o then ENull else EBind o)
                      items)))
    else Raise TypeError
  else Ok (EBinary op_in (EColumn col) (EBind (VList items))).

(** [col.like(s)] for a [str] *)
Definition column_like (col : Column) (s : string) : expr :=
  EBinary op_like (EColumn col) (EBind (VStr s)).

(** ** The predicate compiler and the statement builder *)

Definition http400 {A : Type} (msg : string) : result HTTPException A :=
  Raise (mkHTTPException 400 msg).

(** The same where library exceptions can occur too. *)
Definition raise400 {A : Type} (msg : string) : result raised A :=
  lift_http (http400 msg).

(** The test of [query] that sends a grouping specifier to [text(g)]:
    ["(" in g or "::" in g or g.count(" ") > 0]. *)
Definition is_raw (g : string) : bool :=
  PyStr.contains "(" g || PyStr.contains "::" g
  || (0 <? PyStr.count g " ")%nat.

(** Truthiness of an [Optional[List[...]]]: [None] and [[]] are falsy. *)
Definition list_truthy {A : Type} (o : option (list A)) : bool :=
  match o with
  | Some (_ :: _) => true
  | _ => false
  end.

(** Truthiness of an [Optional[int]]: [None] and [0] are falsy. *)
Definition int_truthy (o : option Z) : bool :=
  match o with
  | Some n => negb (n =? 0)
  | None => false
  end.

Section Compiler.

(** [str.lower], and the builtin [str] applied to a filter value. *)
Context (lower : string -> string) (py_str : value -> string).

(** [_apply_filter_clause(tbl, f)] *)
Definition _apply_filter_clause (tbl : Table) (f : FilterItem)
  : result raised expr :=
  match c_get tbl (f_column f) with
  | None => raise400 ("Unknown column: " +:+ f_column f)
  | Some col =>
      let op := lower (f_op f) in
      if String.eqb op "=" || String.eqb op "eq" then
        lift_library (column_compare op_eq col (f_value f))
      else if String.eqb op "!=" || String.eqb op "ne" then
        lift_library (column_compare op_ne col (f_value f))
      else if String.eqb op ">" then
        lift_library (column_compare op_gt col (f_value f))
      else if String.eqb op "<" then
        lift_library (column_compare op_lt col (f_value f))
      else if String.eqb op ">=" then
        lift_library (column_compare op_ge col (f_value f))
      else if String.eqb op "<=" then
        lift_library (column_compare op_le col (f_value f))
      else if String.eqb op "in" then
        if negb (is_list (f_value f)) then
          raise400 "Value for 'in' must be a list"
        else lift_library (column_in col (list_items (f_value f)))
      else if String.eqb op "like" then
        Ok (column_like col (py_str (f_value f)))
      else raise400 ("Unsupported filter op: " +:+ f_op f)
  end.

(** One turn of the [for g in req.group_by] loop of [query]. *)
Definition resolve_group (tbl : Table) (g : string)
  : result HTTPException expr :=
  if is_raw g then Ok (EText g)
  else match c_get tbl g with
       | None => http400 ("Unknown group_by column: " +:+ g)
       | Some c => Ok (EColumn c)
       end.

(** What [func.count(tbl.c.get(name))] receives. *)
Definition column_arg (o : option Column) : expr :=
  match o with
  | Some c => EColumn c
  | None => ENone
  end.

(** One turn of the [for m in req.metrics] loop of [query]. *)
Definition compile_metric (tbl : Table) (m : Metric)
  : result HTTPException expr :=
  let op := lower (m_op m) in
  e <- (if String.eqb op "count" then
          Ok (if negb (PyStr.truthy (m_column m)) then EFunc "count" None
              else EFunc "count"
                     (Some (column_arg (c_get tbl (default "" (m_column m))))))
        else if negb (PyStr.truthy (m_column m)) then
          http400 ("Metric " +:+ m_op m +:+ " needs a column")
        else
          match c_get tbl (default "" (m_column m)) with
          | None =>
              http400 ("Unknown metric column: " +:+ default "" (m_column m))
          | Some col =>
              if String.eqb op "sum" then Ok (EFunc "sum" (Some (EColumn col)))
              else if String.eqb op "avg" then
                Ok (EFunc "avg" (Some (EColumn col)))
              else if String.eqb op "max" then
                Ok (EFunc "max" (Some (EColumn col)))
              else if String.eqb op "min" then
                Ok (EFunc "min" (Some (EColumn col)))
              else http400 ("Unsupported metric op: " +:+ m_op m)
          end) ;;
  let alias :=
    PyStr.or_else (m_alias m)
      (op +:+ "_" +:+ PyStr.or_else (m_column m) "all") in
  Ok (ELabel e alias).

(** [func.count().label("count")] *)
Definition implicit_count : expr := ELabel (EFunc "count" None) "count".

(** [if req.group_by: for g in req.group_by: ...], giving [group_cols]. *)
Definition group_loop (tbl : Table) (req : QueryRequest)
  : result HTTPException (list expr) :=
  if list_truthy (group_by req)
  then map_result (resolve_group tbl) (default [] (group_by req))
  else Ok [].

(** [if req.metrics: for m in req.metrics: ...], giving [sel_cols]. *)
Definition metric_loop (tbl : Table) (req : QueryRequest)
  : result HTTPException (list expr) :=
  if list_truthy (metrics req)
  then map_result (compile_metric tbl) (default [] (metrics req))
  else Ok [].

(** [if req.filters: clauses = [_apply_filter_clause(tbl, ...) for f in
    req.filters]], giving the clauses handed to [stmt.where] one by one. *)
Definition filter_loop (tbl : Table) (req : QueryRequest)
  : result raised (list expr) :=
  if list_truthy (filters req)
  then map_result (_apply_filter_clause tbl) (default [] (filters req))
  else Ok [].

(** The body of [query] between table resolution and execution: from
    [group_cols = []] to the last change of [stmt]. *)
Definition build_statement (tbl : Table) (req : QueryRequest)
  : result raised Statement :=
  group_cols <- lift_http (group_loop tbl req) ;;
  sel_cols <- lift_http (metric_loop tbl req) ;;
  let sel_cols := match sel_cols with
                  | [] => [implicit_count]
                  | _ => sel_cols
                  end in
  let stmt := select_from (group_cols ++ sel_cols)%list tbl in
  clauses <- filter_loop tbl req ;;
  let stmt := List.fold_left stmt_where clauses stmt in
  let stmt := match group_cols with
              | [] => stmt
              | _ => stmt_group_by stmt group_cols
              end in
  let stmt := if int_truthy (limit req)
              then stmt_limit stmt (limit req)
              else stmt in
  Ok stmt.

End Compiler.

(** ** The schema cache and the request handler *)

(** A result row: output column or alias name to value, in select order. *)
Definition Row : Type := list (string * value).

(** The database as the program sees it: what reflecting a table name gives,
    and what running a statement gives. *)
Record Database : Type := mkDatabase {
  reflect : string -> result DBError Table;
  execute : Statement -> result DBError (list Row)
}.

(** The database calls a run performs. *)
Inductive io_event : Type :=
| IOReflect (name : string)
| IOExecute (stmt : Statement).

(** [get_table(table_name)] over the current [TABLE_CACHE]: the result, the
    cache afterwards and the I/O performed. *)
Definition get_table (db : Database) (table_name : string)
    (TABLE_CACHE : gmap string Table)
  : result DBError Table * gmap string Table * list io_event :=
  match TABLE_CACHE !! table_name with
  | Some tbl => (Ok tbl, TABLE_CACHE, [])
  | None =>
      match reflect db table_name with
      | Ok tbl =>
          (Ok tbl, <[table_name := tbl]> TABLE_CACHE, [IOReflect table_name])
      | Raise e => (Raise e, TABLE_CACHE, [IOReflect table_name])
      end
  end.

Section Handler.

Context (lower : string -> string) (py_str : value -> string).

(** [query(req)]: its rows, or the exception that leaves it. *)
Definition query (db : Database) (req : QueryRequest)
    (TABLE_CACHE : gmap string Table)
  : result raised (list Row) * gmap string Table * list io_event :=
  let '(r, cache, io) := get_table db (table req) TABLE_CACHE in
  match r with
  | Raise e =>
      (raise400 ("Table not found or reflection error: " +:+ message e),
       cache, io)
  | Ok tbl =>
      match build_statement lower py_str tbl req with
      | Raise e => (Raise e, cache, io)
      | Ok stmt =>
          match execute db stmt with
          | Ok rows => (Ok rows, cache, (io ++ [IOExecute stmt])%list)
          | Raise e =>
              (Raise (Http (mkHTTPException 500 (message e))), cache,
               (io ++ [IOExecute stmt])%list)
          end
      end
  end.

End Handler.

(** ** Sequences of resolutions *)

(** The cache after a run of [get_table] calls, each against the database
    as it is at that moment; their outcomes are dropped, as callers that
    catch the exception do. *)
Fixpoint resolutions (steps : list (Database * string))
    (TABLE_CACHE : gmap string Table) : gmap string Table :=
  match steps with
  | [] => TABLE_CACHE
  | (db, name) :: rest =>
      resolutions rest (get_table db name TABLE_CACHE).1.2
  end.

(** The same against one unchanging database. *)
Definition resolve_all (db : Database) (names : list string)
    (TABLE_CACHE : gmap string Table) : gmap string Table :=
  resolutions (List.map (fun n => (db, n)) names) TABLE_CACHE.

(** ** The operator grammar as a table *)

(** The operators [_apply_filter_clause] compares the lower-cased [f.op]
    with, and the comparison each one builds. *)
Definition operator_table : list (string * operator) :=
  [("=", op_eq); ("eq", op_eq); ("!=", op_ne); ("ne", op_ne);
   (">", op_gt); ("<", op_lt); (">=", op_ge); ("<=", op_le);
   ("in", op_in); ("like", op_like)].

Definition lookup_operator (t : list (string * operator)) (op : string)
  : option operator :=
  match List.find (fun p => String.eqb op (fst p)) t with
  | Some p => Some (snd p)
  | None => None
  end.

Definition supported_operator : string -> option operator :=
  lookup_operator operator_table.

(** The specification's operator set: the words [eq, ne, gt, lt, gte, lte,
    in, like] and the symbols [=, !=, >, <, >=, <=]. *)
Definition spec_operator_table : list (string * operator) :=
  [("eq", op_eq); ("ne", op_ne); ("gt", op_gt); ("lt", op_lt);
   ("gte", op_ge); ("lte", op_le); ("in", op_in); ("like", op_like);
   ("=", op_eq); ("!=", op_ne); (">", op_gt); ("<", op_lt);
   (">=", op_ge); ("<=", op_le)].

Definition spec_supported_operator : string -> option operator :=
  lookup_operator spec_operator_table.

(** The specification's reading of a raw grouping specifier: it contains a
    parenthesis, the cast marker [::], or a whitespace character that is
    neither its first nor its last character. *)
Definition is_space (c : ascii) : bool :=
  let n := N_of_ascii c in
  ((n =? 32) || (9 <=? n) && (n <=? 13))%N.

Definition has_internal_whitespace (g : string) : bool :=
  match list_ascii_of_string g with
  | [] => false
  | _ :: rest => existsb is_space (removelast rest)
  end.

Definition spec_is_raw (g : string) : bool :=
  PyStr.contains "(" g || PyStr.contains ")" g || PyStr.contains "::" g
  || has_internal_whitespace g.

(** [sub] occurs in [g]. *)
Definition substring_of (sub g : string) : Prop :=
  exists a b, g = a +:+ sub +:+ b.

(** No statement was run in a trace. *)
Definition never_executed (io : list io_event) : Prop :=
  forall stmt, ~ In (IOExecute stmt) io.

(** ** Fixtures *)

(** The table of the specification's worked example, with a status column. *)
Definition demo_table : Table :=
  mkTable "sales"
    [mkColumn "region" "VARCHAR"; mkColumn "revenue" "NUMERIC";
     mkColumn "status" "VARCHAR"].

(** [str] on [None], booleans, integers and strings; floats, lists and
    dicts, whose text needs [repr], are left out and print as nothing. *)
Definition demo_str (v : value) : string :=
  match v with
  | VStr s => s
  | VNone => "None"
  | VBool true => "True"
  | VBool false => "False"
  | VInt n => NilZero.string_of_int (Z.to_int n)
  | _ => ""
  end.

(** A database holding [sales] only, reflected as a synchronous connection
    would reflect it, whose statements all return one row. *)
Definition demo_db : Database :=
  {| reflect := fun name =>
       if String.eqb name "sales" then Ok demo_table
       else Raise (mkDBError name);
     execute := fun _ => Ok [[("count", VInt 3)]] |}.

(** The request [{"table": "sales", "filters": [status = "open"]}] and the
    statement it compiles to over [demo_table]. *)
Definition demo_request : QueryRequest :=
  QueryRequest_init "sales" Omitted Omitted
    (Given (Some [mkFilterItem "status" "=" (VStr "open")])) Omitted.

Definition demo_statement : Statement :=
  {| sel_list := [ELabel (EFunc "count" None) "count"];
     from_table := demo_table;
     where_clauses :=
       [EBinary op_eq (EColumn (mkColumn "status" "VARCHAR"))
          (EBind (VStr "open"))];
     group_by_clause := [];
     limit_clause := Some 1000 |}.

(** The database as [main.py] reaches it: [get_table] hands an
    [AsyncConnection] to [Table(..., autoload_with=conn)], which the library
    refuses to inspect, so every reflection raises (the message is
    abridged); statements return one row. *)
Definition async_db : Database :=
  {| reflect := fun _ =>
       Raise (mkDBError
                "Inspection on an AsyncConnection is currently not supported.");
     execute := fun _ => Ok [[("count", VInt 3)]] |}.

(** A cache that already holds [sales]. *)
Definition sales_cache : gmap string Table := {[ "sales" := demo_table ]}.

(** ** The canned endpoints *)

(** [name in tbl.c] *)
Definition c_contains (tbl : Table) (name : string) : bool :=
  match c_get tbl name with
  | Some _ => true
  | None => false
  end.

(** [str(n)] for an [int], as an f-string renders it. *)
Definition int_str (n : Z) : string := NilZero.string_of_int (Z.to_int n).

(** The discovery loop shared by [top_products] and [repeat_customers]:
    [for name in table_candidates: try: tbl = await get_table(name); break;
    except Exception: continue].  [None] stands for [tbl is None]. *)
Fixpoint find_table (db : Database) (table_candidates : list string)
    (TABLE_CACHE : gmap string Table)
  : option Table * gmap string Table * list io_event :=
  match table_candidates with
  | [] => (None, TABLE_CACHE, [])
  | name :: rest =>
      let '(r, cache, io) := get_table db name TABLE_CACHE in
      match r with
      | Ok tbl => (Some tbl, cache, io)
      | Raise _ =>
          let '(found, cache', io') := find_table db rest cache in
          (found, cache', io ++ io')
      end
  end.

(** [for name in names: if name in cols: price_col = cols.get(name); break],
    starting from [price_col = None]. *)
Fixpoint first_column (tbl : Table) (names : list string) : option Column :=
  match names with
  | [] => None
  | name :: rest =>
      if c_contains tbl name then c_get tbl name else first_column tbl rest
  end.

(** [sqlalchemy.desc(label)] *)
Inductive order_term : Type :=
| Desc (label : string).

(** The statement of [top_products]: a select with an [order_by]. *)
Record TopStatement : Type := mkTopStatement {
  ts_core : Statement;
  ts_order_by : list order_term
}.

(** [stmt.where(c)] on such a statement. *)
Definition ts_where (stmt : TopStatement) (c : expr) : TopStatement :=
  {| ts_core := stmt_where (ts_core stmt) c;
     ts_order_by := ts_order_by stmt |}.

(** How a canned endpoint ends when it does not return rows: with an
    [HTTPException] it raised, or with the exception of a database call it
    does not catch. *)
Inductive endpoint_error : Type :=
| EHTTP (e : HTTPException)
| EUnhandled (e : DBError).

(** The statement [top_products] assembles once the table and its
    [product_id] column are known. *)
Definition top_products_statement (tbl : Table) (product_id : Column)
    (store_id : option Z) (channel : option string) (limit : Z)
  : TopStatement :=
  let price_col := first_column tbl ["total"; "total_price"; "price"; "valor"] in
  let revenue :=
    match price_col with
    | Some c => EFunc "sum" (Some (EColumn c))
    | None => EFunc "sum" (Some (EText "1"))
    end in
  let stmt :=
    {| ts_core :=
         {| sel_list := [EColumn product_id;
                         ELabel (EFunc "count" None) "qty";
                         ELabel revenue "revenue"];
            from_table := tbl;
            where_clauses := [];
            group_by_clause := [EColumn product_id];
            limit_clause := Some limit |};
       ts_order_by := [Desc "qty"] |} in
  let stmt :=
    match store_id, c_get tbl "store_id" with
    | Some v, Some col => ts_where stmt (EBinary op_eq (EColumn col) (EBind (VInt v)))
    | _, _ => stmt
    end in
  let stmt :=
    match channel, c_get tbl "channel" with
    | Some v, Some col => ts_where stmt (EBinary op_eq (EColumn col) (EBind (VStr v)))
    | _, _ => stmt
    end in
  stmt.

(** [top_products(store_id, channel, limit)]: the outcome, the cache
    afterwards, the reflections performed and the statement handed to
    [session.execute], if any.  [run] is the database executing it. *)
Definition top_products (db : Database)
    (run : TopStatement -> result DBError (list Row))
    (store_id : option Z) (channel : option string) (limit : field Z)
    (TABLE_CACHE : gmap string Table)
  : result endpoint_error (list Row) * gmap string Table * list io_event
    * option TopStatement :=
  let limit := field_default 10 limit in
  let '(found, cache, io) :=
    find_table db ["sales"; "orders"; "vendas"] TABLE_CACHE in
  match found with
  | None =>
      (Raise (EHTTP (mkHTTPException 404
          "No sales table found. Edit table_candidates in code if needed.")),
       cache, io, None)
  | Some tbl =>
      match c_get tbl "product_id" with
      | None =>
          (Raise (EHTTP (mkHTTPException 400
              "sales table missing product_id column in this schema")),
           cache, io, None)
      | Some product_id =>
          let stmt :=
            top_products_statement tbl product_id store_id channel limit in
          (match run stmt with
           | Ok rows => Ok rows
           | Raise e => Raise (EUnhandled e)
           end, cache, io, Some stmt)
      end
  end.

(** The subquery of [repeat_customers]: a grouped select with a [having]. *)
Record Subquery : Type := mkSubquery {
  sq_core : Statement;
  sq_having : list expr
}.

(** Expressions over a subquery's columns. *)
Inductive outer_expr : Type :=
| OSubColumn (name : string)            (* [subq.c.name] *)
| OExpr (e : expr)                      (* a function call or a [text(...)] *)
| OMinus (l r : outer_expr)             (* [l - r] *)
| OLess (l r : outer_expr).             (* [l < r] *)

(** The statement of [repeat_customers]. *)
Record RepeatStatement : Type := mkRepeatStatement {
  rs_select : list outer_expr;
  rs_from : Subquery;
  rs_where : list outer_expr;
  rs_limit : option Z
}.

Fixpoint outer_text_fragments (e : outer_expr) : list string :=
  match e with
  | OSubColumn _ => []
  | OExpr e' => text_fragments e'
  | OMinus l r | OLess l r => outer_text_fragments l ++ outer_text_fragments r
  end.

Fixpoint outer_bound_values (e : outer_expr) : list value :=
  match e with
  | OSubColumn _ => []
  | OExpr e' => bound_values e'
  | OMinus l r | OLess l r => outer_bound_values l ++ outer_bound_values r
  end.

(** All literal SQL of a [RepeatStatement], subquery included, and all its
    bound parameters in the order of the statement text: select list,
    subquery, conditions, and the limit, which [.limit(n)] binds. *)
Definition repeat_text_fragments (stmt : RepeatStatement) : list string :=
  flat_map outer_text_fragments (rs_select stmt ++ rs_where stmt)
  ++ flat_map text_fragments
       (sel_list (sq_core (rs_from stmt))
        ++ where_clauses (sq_core (rs_from stmt))
        ++ group_by_clause (sq_core (rs_from stmt))
        ++ sq_having (rs_from stmt)).

Definition repeat_bound_values (stmt : RepeatStatement) : list value :=
  flat_map outer_bound_values (rs_select stmt)
  ++ flat_map bound_values
       (sel_list (sq_core (rs_from stmt))
        ++ where_clauses (sq_core (rs_from stmt))
        ++ group_by_clause (sq_core (rs_from stmt))
        ++ sq_having (rs_from stmt))
  ++ flat_map outer_bound_values (rs_where stmt)
  ++ match rs_limit stmt with
     | Some n => [VInt n]
     | None => []
     end.

(** The statement [repeat_customers] assembles once the table and its two
    columns are known. *)
Definition repeat_customers_statement (tbl : Table)
    (customer_id created_at : Column) (min_purchases days_since : Z)
  : RepeatStatement :=
  let subq :=
    {| sq_core :=
         {| sel_list := [EColumn customer_id;
                         ELabel (EFunc "count" None) "cnt";
                         ELabel (EFunc "max" (Some (EColumn created_at)))
                           "last_at"];
            from_table := tbl;
            where_clauses := [];
            group_by_clause := [EColumn customer_id];
            limit_clause := None |};
       sq_having :=
         [EBinary op_ge (EFunc "count" None) (EBind (VInt min_purchases))] |} in
  {| rs_select := [OSubColumn "customer_id"; OSubColumn "cnt";
                   OSubColumn "last_at"];
     rs_from := subq;
     rs_where :=
       [OLess (OSubColumn "last_at")
          (OMinus (OExpr (EFunc "now" None))
             (OExpr (EText ("interval '" +:+ int_str days_since
                            +:+ " days'"))))];
     rs_limit := Some 1000 |}.

(** [repeat_customers(min_purchases, days_since)] *)
Definition repeat_customers (db : Database)
    (run : RepeatStatement -> result DBError (list Row))
    (min_purchases days_since : field Z)
    (TABLE_CACHE : gmap string Table)
  : result endpoint_error (list Row) * gmap string Table * list io_event
    * option RepeatStatement :=
  let min_purchases := field_default 3 min_purchases in
  let days_since := field_default 30 days_since in
  let '(found, cache, io) :=
    find_table db ["sales"; "orders"; "vendas"] TABLE_CACHE in
  match found with
  | None =>
      (Raise (EHTTP (mkHTTPException 404
          "No sales/orders table found; edit table_candidates in code if needed")),
       cache, io, None)
  | Some tbl =>
      match c_get tbl "customer_id", c_get tbl "created_at" with
      | Some customer_id, Some created_at =>
          let stmt :=
            repeat_customers_statement tbl customer_id created_at
              min_purchases days_since in
          (match run stmt with
           | Ok rows => Ok rows
           | Raise e => Raise (EUnhandled e)
           end, cache, io, Some stmt)
      | _, _ =>
          (Raise (EHTTP (mkHTTPException 400
              "schema must have customer_id and created_at on the sales table for this endpoint")),
           cache, io, None)
      end
  end.

(** ** Notions used by the further properties *)


(** A value that a column operator binds as it is: neither [None] nor a
    boolean, nor a list that holds a [None]. *)
Definition bindable (v : value) : bool :=
  negb (is_none_or_bool v) && negb (existsb is_none (list_items v)).

(** The parameters a filter term binds when it compiles. *)
Definition filter_parameters (lower : string -> string)
    (py_str : value -> string) (f : FilterItem) : list value :=
  if String.eqb (lower (f_op f)) "like" then [VStr (py_str (f_value f))]
  else if String.eqb (lower (f_op f)) "in" then
    if existsb is_none (list_items (f_value f))
    then List.filter (fun o => negb (is_none o)) (list_items (f_value f))
    else [f_value f]
  else if is_none_or_bool (f_value f) then []
  else [f_value f].


(** The ordering operators of the if-chain. *)
Definition ordering_words : list string := [">"; "<"; ">="; "<="].

(** [Table(name, meta, autoload_with=conn)] raises for every name: the
    case of the [AsyncConnection] that [get_table] passes as [conn]. *)
Definition never_reflects (db : Database) : Prop :=
  forall name, is_ok (reflect db name) = false.

(** Every entry of the cache is what the database reflects for its name. *)
Definition cache_sound (db : Database) (cache : gmap string Table) : Prop :=
  forall n t, cache !! n = Some t -> reflect db n = Ok t.

(** A candidate that [get_table] cannot resolve: not cached, not reflected. *)
Definition unresolvable (db : Database) (cache : gmap string Table)
    (name : string) : Prop :=
  cache !! name = None /\ is_ok (reflect db name) = false.

(** The characters [str(n)] can contain. *)
Definition is_sign_or_digit (c : ascii) : bool :=
  let n := N_of_ascii c in
  ((n =? 45) || (48 <=? n) && (n <=? 57))%N.

(** More fixtures: an order table for the canned endpoints, and a database
    that has it under the second candidate name. *)
Definition orders_table : Table :=
  mkTable "orders"
    [mkColumn "product_id" "INTEGER"; mkColumn "customer_id" "INTEGER";
     mkColumn "price" "NUMERIC"; mkColumn "channel" "VARCHAR";
     mkColumn "created_at" "TIMESTAMP"].

Definition orders_db : Database :=
  {| reflect := fun name =>
       if String.eqb name "orders" then Ok orders_table
       else Raise (mkDBError name);
     execute := fun _ => Ok [] |}.

(** ** Facts about the predicate compiler *)

Ltac case_eqb :=
  repeat match goal with
    | |- context [String.eqb ?a ?b] =>
        let E := fresh "E" in destruct (String.eqb a b) eqn:E; simpl
    end.

(** The library's operators on the values they bind as they are. *)
Lemma column_compare_bindable (o : operator) (col : Column) (v : value) :
  is_none_or_bool v = false ->
  column_compare o col v = Ok (EBinary o (EColumn col) (EBind v)).
Proof. destruct v; simpl; try discriminate; reflexivity. Qed.

Lemma column_in_plain (col : Column) (items : list value) :
  existsb is_none items = false ->
  column_in col items = Ok (EBinary op_in (EColumn col) (EBind (VList items))).
Proof. intros H. unfold column_in. now rewrite H. Qed.

Lemma column_compare_ok (o : operator) (col : Column) (v : value) (e : expr) :
  column_compare o col v = Ok e ->
  text_fragments e = [] /\
  bound_values e = (if is_none_or_bool v then [] else [v]).
Proof.
  destruct v as [|b| | | | |]; simpl.
  - destruct o; try discriminate; intros [= <-]; split; reflexivity.
  - destruct o; try discriminate; intros [= <-]; destruct b; split; reflexivity.
  - intros [= <-]; split; reflexivity.
  - intros [= <-]; split; reflexivity.
  - intros [= <-]; split; reflexivity.
  - intros [= <-]; split; reflexivity.
  - intros [= <-]; split; reflexivity.
Qed.

Lemma null_items (items : list value) :
  flat_map text_fragments
    (List.map (fun o => if is_none o then ENull else EBind o) items) = [] /\
  flat_map bound_values
    (List.map (fun o => if is_none o then ENull else EBind o) items) =
    List.filter (fun o => negb (is_none o)) items.
Proof.
  induction items as [|o items [IH1 IH2]]; [split; reflexivity|].
  simpl. destruct (is_none o); simpl; rewrite ?IH1, ?IH2; split; reflexivity.
Qed.

Lemma column_in_ok (col : Column) (items : list value) (e : expr) :
  column_in col items = Ok e ->
  text_fragments e = [] /\
  bound_values e =
    (if existsb is_none items
     then List.filter (fun o => negb (is_none o)) items
     else [VList items]).
Proof.
  unfold column_in. destruct (existsb is_none items).
  - destruct (forallb hashable items); [|discriminate].
    intros [= <-]. simpl. apply null_items.
  - intros [= <-]. split; reflexivity.
Qed.

Lemma lift_library_ok {A : Type} (r : result LibraryError A) (a : A) :
  lift_library r = Ok a -> r = Ok a.
Proof. destruct r; simpl; [intros [= ->]; reflexivity | discriminate]. Qed.

Lemma lift_library_not_http {A : Type} (r : result LibraryError A)
    (e : HTTPException) :
  lift_library r <> Raise (Http e).
Proof. destruct r; discriminate. Qed.

Section PredicateCompiler.

Context (lower : string -> string) (py_str : value -> string).

(** The if-chain of [_apply_filter_clause], read through the operator
    table. *)
Lemma apply_filter_clause_dispatch (tbl : Table) (f : FilterItem) (col : Column) :
  c_get tbl (f_column f) = Some col ->
  _apply_filter_clause lower py_str tbl f =
    match supported_operator (lower (f_op f)) with
    | None => raise400 ("Unsupported filter op: " +:+ f_op f)
    | Some op_in =>
        if is_list (f_value f)
        then lift_library (column_in col (list_items (f_value f)))
        else raise400 "Value for 'in' must be a list"
    | Some op_like => Ok (column_like col (py_str (f_value f)))
    | Some o => lift_library (column_compare o col (f_value f))
    end.
Proof.
  intros Hcol. unfold _apply_filter_clause. rewrite Hcol.
  unfold supported_operator, lookup_operator, operator_table.
  cbn [List.find fst snd].
  case_eqb; try reflexivity.
  all: destruct (is_list (f_value f)); reflexivity.
Qed.

(** A term whose column the table lacks is refused before its operator is
    looked at. *)
Lemma apply_filter_clause_unknown_column (tbl : Table) (f : FilterItem) :
  c_get tbl (f_column f) = None ->
  _apply_filter_clause lower py_str tbl f =
    raise400 ("Unknown column: " +:+ f_column f).
Proof. intros H. unfold _apply_filter_clause. now rewrite H. Qed.

(** Every [HTTPException] of the predicate compiler carries status 400. *)
Lemma apply_filter_clause_status (tbl : Table) (f : FilterItem) (e : HTTPException) :
  _apply_filter_clause lower py_str tbl f = Raise (Http e) -> status_code e = 400.
Proof.
  destruct (c_get tbl (f_column f)) as [col|] eqn:Hcol.
  - rewrite (apply_filter_clause_dispatch tbl f col Hcol).
    destruct (supported_operator (lower (f_op f))) as [o|];
      [|intros [= <-]; reflexivity].
    destruct o; try (intros H; exfalso; exact (lift_library_not_http _ _ H)).
    + destruct (is_list (f_value f));
        [intros H; exfalso; exact (lift_library_not_http _ _ H)|].
      intros [= <-]. reflexivity.
    + discriminate.
  - rewrite apply_filter_clause_unknown_column by exact Hcol.
    intros [= <-]. reflexivity.
Qed.

(** The operator words exclude one another. *)
Lemma supported_like (op : string) :
  supported_operator op = Some op_like <-> String.eqb op "like" = true.
Proof.
  unfold supported_operator, lookup_operator, operator_table.
  cbn [List.find fst snd]. split.
  - case_eqb; intros H; try discriminate H; reflexivity.
  - intros H. apply String.eqb_eq in H. subst op. reflexivity.
Qed.

Lemma supported_in (op : string) :
  supported_operator op = Some op_in <-> String.eqb op "in" = true.
Proof.
  unfold supported_operator, lookup_operator, operator_table.
  cbn [List.find fst snd]. split.
  - case_eqb; intros H; try discriminate H; reflexivity.
  - intros H. apply String.eqb_eq in H. subst op. reflexivity.
Qed.

Lemma supported_range (op : string) (o : operator) :
  supported_operator op = Some o -> o <> op_is /\ o <> op_is_not.
Proof.
  unfold supported_operator, lookup_operator, operator_table.
  cbn [List.find fst snd].
  case_eqb; intros [= <-]; split; discriminate.
Qed.

(** A compiled clause holds no literal SQL, and binds what
    [filter_parameters] says. *)
Lemma apply_filter_clause_ok (tbl : Table) (f : FilterItem) (e : expr) :
  _apply_filter_clause lower py_str tbl f = Ok e ->
  exists o col,
    c_get tbl (f_column f) = Some col /\
    supported_operator (lower (f_op f)) = Some o /\
    text_fragments e = [] /\
    bound_values e = filter_parameters lower py_str f.
Proof.
  intros H.
  destruct (c_get tbl (f_column f)) as [col|] eqn:Hcol.
  2:{ rewrite apply_filter_clause_unknown_column in H by assumption.
      discriminate. }
  rewrite (apply_filter_clause_dispatch tbl f col Hcol) in H.
  destruct (supported_operator (lower (f_op f))) as [o|] eqn:Ho;
    [|discriminate].
  exists o, col. split; [reflexivity|]. split; [reflexivity|].
  unfold filter_parameters.
  destruct (String.eqb (lower (f_op f)) "like") eqn:Hlike.
  { apply supported_like in Hlike. rewrite Ho in Hlike.
    injection Hlike as ->. injection H as <-. split; reflexivity. }
  destruct (String.eqb (lower (f_op f)) "in") eqn:Hin.
  { apply supported_in in Hin. rewrite Ho in Hin. injection Hin as ->.
    destruct (f_value f) as [| | | | |items|]; cbn [is_list list_items] in *;
      try discriminate.
    apply lift_library_ok, column_in_ok in H. exact H. }
  assert (Hnl : o <> op_like).
  { intros ->. apply supported_like in Ho. congruence. }
  assert (Hni : o <> op_in).
  { intros ->. apply supported_in in Ho. congruence. }
  destruct o; try congruence;
    apply lift_library_ok, column_compare_ok in H; exact H.
Qed.

(** With a value that is bound as it is, or under [like], the clause is
    the operator's comparison of the column with one bound parameter. *)
Lemma apply_filter_clause_skeleton (tbl : Table) (f : FilterItem) (e : expr) :
  _apply_filter_clause lower py_str tbl f = Ok e ->
  String.eqb (lower (f_op f)) "like" = true \/ bindable (f_value f) = true ->
  exists o col,
    c_get tbl (f_column f) = Some col /\
    supported_operator (lower (f_op f)) = Some o /\
    skeleton e = EBinary o (EColumn col) (EBind VNone).
Proof.
  intros H Hb.
  destruct (c_get tbl (f_column f)) as [col|] eqn:Hcol.
  2:{ rewrite apply_filter_clause_unknown_column in H by assumption.
      discriminate. }
  rewrite (apply_filter_clause_dispatch tbl f col Hcol) in H.
  destruct (supported_operator (lower (f_op f))) as [o|] eqn:Ho;
    [|discriminate].
  exists o, col. split; [reflexivity|]. split; [reflexivity|].
  destruct (String.eqb (lower (f_op f)) "like") eqn:Hlike.
  { apply supported_like in Hlike. rewrite Ho in Hlike.
    injection Hlike as ->. injection H as <-. reflexivity. }
  destruct Hb as [Hb|Hb]; [discriminate|].
  unfold bindable in Hb. apply andb_prop in Hb as [Hb1 Hb2].
  apply negb_true_iff in Hb1, Hb2.
  assert (Hnl : o <> op_like).
  { intros ->. apply supported_like in Ho. congruence. }
  destruct o; try congruence.
  7:{ destruct (is_list (f_value f)); [|discriminate].
      rewrite (column_in_plain col _ Hb2) in H. injection H as <-.
      reflexivity. }
  all: try (rewrite (column_compare_bindable _ col _ Hb1) in H;
            injection H as <-; reflexivity).
  all: apply supported_range in Ho; destruct Ho; congruence.
Qed.

End PredicateCompiler.

(** ** Facts about loops that may raise *)

Lemma map_result_raise {E A B : Type} (f : A -> result E B) (l : list A) (e : E) :
  map_result f l = Raise e -> exists a, In a l /\ f a = Raise e.
Proof.
  induction l as [|a l IH]; simpl; [discriminate|].
  destruct (f a) as [b|e'] eqn:Ha; simpl.
  - destruct (map_result f l) as [bs|e'']; simpl; [discriminate|].
    intros [= ->]. destruct IH as (a' & Hin & Hf); [reflexivity|].
    exists a'. split; [right|]; assumption.
  - intros [= ->]. exists a. split; [left; reflexivity | assumption].
Qed.

Lemma map_result_ok {E A B : Type} (f : A -> result E B) (l : list A) (bs : list B) :
  map_result f l = Ok bs -> Forall2 (fun a b => f a = Ok b) l bs.
Proof.
  revert bs. induction l as [|a l IH]; simpl; intros bs.
  - intros [= <-]. constructor.
  - destruct (f a) as [b|e] eqn:Ha; simpl; [|discriminate].
    destruct (map_result f l) as [bs'|e]; simpl; [|discriminate].
    intros [= <-]. constructor; [assumption | apply IH; reflexivity].
Qed.

(** A loop reaches no result when one of its items cannot succeed. *)
Lemma map_result_blocked {E A B : Type} (f : A -> result E B) (l : list A) (a : A) :
  In a l -> is_ok (f a) = false -> is_ok (map_result f l) = false.
Proof.
  intros Hin Hbad. induction l as [|x l IH]; [destruct Hin|].
  simpl. destruct Hin as [->|Hin].
  - destruct (f a); [discriminate | reflexivity].
  - destruct (f x); simpl; [|reflexivity].
    specialize (IH Hin). destruct (map_result f l); [discriminate | reflexivity].
Qed.

(** ** Facts about the statement builder *)

Section StatementBuilder.

Context (lower : string -> string) (py_str : value -> string).

Lemma resolve_group_status (tbl : Table) (g : string) (e : HTTPException) :
  resolve_group tbl g = Raise e -> status_code e = 400.
Proof.
  unfold resolve_group, http400. destruct (is_raw g); [discriminate|].
  destruct (c_get tbl g); [discriminate|]. intros [= <-]. reflexivity.
Qed.

Lemma compile_metric_status (tbl : Table) (m : Metric) (e : HTTPException) :
  compile_metric lower tbl m = Raise e -> status_code e = 400.
Proof.
  unfold compile_metric, http400.
  destruct (String.eqb (lower (m_op m)) "count"); simpl; [discriminate|].
  destruct (PyStr.truthy (m_column m)); simpl; [|intros [= <-]; reflexivity].
  destruct (c_get tbl (default "" (m_column m))); simpl;
    [|intros [= <-]; reflexivity].
  case_eqb; try discriminate. intros [= <-]. reflexivity.
Qed.

(** A grouping column is a table column or a literal fragment, never an
    aggregate. *)
Lemma resolve_group_shape (tbl : Table) (g : string) (e : expr) :
  resolve_group tbl g = Ok e ->
  (is_raw g = true /\ e = EText g) \/
  (is_raw g = false /\ exists c, c_get tbl g = Some c /\ e = EColumn c).
Proof.
  unfold resolve_group. destruct (is_raw g).
  - intros [= <-]. left. split; reflexivity.
  - destruct (c_get tbl g) as [c|]; [|discriminate].
    intros [= <-]. right. split; [reflexivity|]. exists c. split; reflexivity.
Qed.

(** The [for c in clauses: stmt = stmt.where(c)] loop appends the clauses
    in order and touches nothing else. *)
Lemma fold_where (cs : list expr) (stmt : Statement) :
  List.fold_left stmt_where cs stmt =
    {| sel_list := sel_list stmt;
       from_table := from_table stmt;
       where_clauses := where_clauses stmt ++ cs;
       group_by_clause := group_by_clause stmt;
       limit_clause := limit_clause stmt |}.
Proof.
  revert stmt. induction cs as [|c cs IH]; intros stmt; simpl.
  - rewrite app_nil_r. destruct stmt; reflexivity.
  - rewrite IH. simpl. rewrite <- app_assoc. reflexivity.
Qed.

Lemma build_statement_unfold (tbl : Table) (req : QueryRequest) :
  build_statement lower py_str tbl req =
    (group_cols <- lift_http (group_loop tbl req) ;;
     sel_cols <- lift_http (metric_loop lower tbl req) ;;
     clauses <- filter_loop lower py_str tbl req ;;
     Ok {| sel_list :=
             (group_cols ++ match sel_cols with
                            | [] => [implicit_count]
                            | _ => sel_cols
                            end)%list;
           from_table := tbl;
           where_clauses := clauses;
           group_by_clause := group_cols;
           limit_clause :=
             if int_truthy (limit req) then limit req else None |}).
Proof.
  unfold build_statement.
  destruct (group_loop tbl req) as [gs|]; simpl; [|reflexivity].
  destruct (metric_loop lower tbl req) as [ms|]; simpl; [|reflexivity].
  destruct (filter_loop lower py_str tbl req) as [cs|]; simpl; [|reflexivity].
  rewrite fold_where.
  destruct gs; destruct (int_truthy (limit req)); reflexivity.
Qed.

Lemma group_loop_status tbl req e :
  group_loop tbl req = Raise e -> status_code e = 400.
Proof.
  unfold group_loop. destruct (list_truthy (group_by req)); [|discriminate].
  intros H. apply map_result_raise in H as (g & _ & Hg).
  eapply resolve_group_status, Hg.
Qed.

Lemma metric_loop_status tbl req e :
  metric_loop lower tbl req = Raise e -> status_code e = 400.
Proof.
  unfold metric_loop. destruct (list_truthy (metrics req)); [|discriminate].
  intros H. apply map_result_raise in H as (m & _ & Hm).
  eapply compile_metric_status, Hm.
Qed.

Lemma filter_loop_status tbl req e :
  filter_loop lower py_str tbl req = Raise (Http e) -> status_code e = 400.
Proof.
  unfold filter_loop. destruct (list_truthy (filters req)); [|discriminate].
  intros H. apply map_result_raise in H as (f & _ & Hf).
  eapply apply_filter_clause_status, Hf.
Qed.

(** Every [HTTPException] raised while the statement is built has status
    400. *)
Lemma build_statement_status (tbl : Table) (req : QueryRequest) (e : HTTPException) :
  build_statement lower py_str tbl req = Raise (Http e) -> status_code e = 400.
Proof.
  rewrite build_statement_unfold.
  destruct (group_loop tbl req) as [gs|e1] eqn:Hg; simpl.
  2:{ intros [= <-]. eapply group_loop_status, Hg. }
  destruct (metric_loop lower tbl req) as [ms|e2] eqn:Hm; simpl.
  2:{ intros [= <-]. eapply metric_loop_status, Hm. }
  destruct (filter_loop lower py_str tbl req) as [cs|e3] eqn:Hf; simpl;
    [discriminate|].
  intros [= ->]. eapply filter_loop_status, Hf.
Qed.

(** A built statement, taken apart. *)
Lemma build_statement_ok (tbl : Table) (req : QueryRequest) (stmt : Statement) :
  build_statement lower py_str tbl req = Ok stmt ->
  exists group_cols sel_cols clauses,
    group_loop tbl req = Ok group_cols /\
    metric_loop lower tbl req = Ok sel_cols /\
    filter_loop lower py_str tbl req = Ok clauses /\
    stmt = {| sel_list :=
                (group_cols ++ match sel_cols with
                               | [] => [implicit_count]
                               | _ => sel_cols
                               end)%list;
              from_table := tbl;
              where_clauses := clauses;
              group_by_clause := group_cols;
              limit_clause :=
                if int_truthy (limit req) then limit req else None |}.
Proof.
  rewrite build_statement_unfold.
  destruct (group_loop tbl req) as [gs|e1]; simpl; [|discriminate].
  destruct (metric_loop lower tbl req) as [ms|e2]; simpl; [|discriminate].
  destruct (filter_loop lower py_str tbl req) as [cs|e3]; simpl; [|discriminate].
  intros [= <-]. exists gs, ms, cs. repeat split; reflexivity.
Qed.

End StatementBuilder.

(** ** Facts about Python string tests *)

Lemma prefix_iff (p s : string) :
  String.prefix p s = true <-> exists r, s = p +:+ r.
Proof.
  revert s. induction p as [|a p IH]; intros s; simpl.
  - split; [intros _; exists s; reflexivity | destruct s; reflexivity].
  - destruct s as [|b s].
    + split; [discriminate | intros [r Hr]; discriminate].
    + simpl. destruct (ascii_dec a b) as [->|Hne].
      * rewrite IH. split; intros [r Hr]; exists r.
        -- now rewrite Hr.
        -- now injection Hr.
      * split; [discriminate | intros [r Hr]; injection Hr; congruence].
Qed.

Lemma contains_unfold (sub g : string) :
  PyStr.contains sub g =
    String.prefix sub g
    || match g with
       | EmptyString => false
       | String _ g' => PyStr.contains sub g'
       end.
Proof. destruct g; reflexivity. Qed.

Lemma contains_iff (sub g : string) :
  PyStr.contains sub g = true <-> substring_of sub g.
Proof.
  unfold substring_of. induction g as [|c g IH]; rewrite contains_unfold.
  - rewrite orb_false_r, prefix_iff. split.
    + intros [r Hr]. exists "", r. exact Hr.
    + intros (a & b & H). destruct a; [exists b; exact H | discriminate].
  - rewrite orb_true_iff, prefix_iff, IH. split.
    + intros [[r Hr] | (a & b & H)].
      * exists "", r. exact Hr.
      * exists (String c a), b. simpl. now rewrite H.
    + intros (a & b & H). destruct a as [|c' a]; simpl in H.
      * left. exists b. exact H.
      * right. injection H as _ H. exists a, b. exact H.
Qed.

(** [s.count(sub) > 0] says no more than [sub in s]. *)
Lemma count_pos_iff (sub g : string) :
  sub <> "" -> (0 <? PyStr.count g sub)%nat = PyStr.contains sub g.
Proof.
  intros Hne. unfold PyStr.count.
  destruct sub as [|a sub]; [congruence|].
  induction g as [|c g IH].
  - reflexivity.
  - rewrite contains_unfold. cbn [PyStr.count_from].
    destruct (String.prefix (String a sub) (String c g)); [reflexivity|].
    exact IH.
Qed.

(** The grouping test in terms of substrings. *)
Lemma is_raw_iff (g : string) :
  is_raw g = true <->
  substring_of "(" g \/ substring_of "::" g \/ substring_of " " g.
Proof.
  unfold is_raw. rewrite count_pos_iff by discriminate.
  rewrite !orb_true_iff, !contains_iff. tauto.
Qed.

(** ** Facts about the schema cache *)

Lemma get_table_hit (db : Database) (name : string) (cache : gmap string Table) (tbl : Table) :
  cache !! name = Some tbl -> get_table db name cache = (Ok tbl, cache, []).
Proof. intros H. unfold get_table. now rewrite H. Qed.

Lemma get_table_miss (db : Database) (name : string) (cache : gmap string Table) :
  cache !! name = None ->
  get_table db name cache =
    match reflect db name with
    | Ok tbl => (Ok tbl, <[name := tbl]> cache, [IOReflect name])
    | Raise e => (Raise e, cache, [IOReflect name])
    end.
Proof. intros H. unfold get_table. now rewrite H. Qed.

(** A failed resolution: the name was not cached, reflection was tried and
    raised, and the cache is as before. *)
Lemma get_table_raise (db : Database) (name : string) (cache cache' : gmap string Table)
    (e : DBError) (io : list io_event) :
  get_table db name cache = (Raise e, cache', io) ->
  cache' = cache /\ cache !! name = None /\ reflect db name = Raise e /\
  io = [IOReflect name].
Proof.
  unfold get_table. destruct (cache !! name) eqn:Hc; [discriminate|].
  destruct (reflect db name) eqn:Hr; [discriminate|].
  intros [= <- <- <-]. repeat split; reflexivity.
Qed.

(** An entry, once stored, is never replaced or dropped. *)
Lemma get_table_keeps (db : Database) (name n : string) (cache : gmap string Table) (tbl : Table) :
  cache !! n = Some tbl -> (get_table db name cache).1.2 !! n = Some tbl.
Proof.
  intros H. unfold get_table.
  destruct (cache !! name) eqn:Hc; simpl; [exact H|].
  destruct (reflect db name); simpl; [|exact H].
  rewrite lookup_insert_ne; [exact H|]. intros ->. congruence.
Qed.

Lemma resolutions_keep (steps : list (Database * string)) (n : string)
    (cache : gmap string Table) (tbl : Table) :
  cache !! n = Some tbl -> resolutions steps cache !! n = Some tbl.
Proof.
  revert cache. induction steps as [|[db name] steps IH]; intros cache H; simpl.
  - exact H.
  - apply IH, get_table_keeps, H.
Qed.

(** Where an entry of the cache comes from after one resolution. *)
Lemma get_table_origin (db : Database) (name n : string) (cache : gmap string Table) (tbl : Table) :
  (get_table db name cache).1.2 !! n = Some tbl ->
  cache !! n = Some tbl \/ (n = name /\ reflect db name = Ok tbl).
Proof.
  unfold get_table. destruct (cache !! name) eqn:Hc; simpl; [tauto|].
  destruct (reflect db name) as [t|e] eqn:Hr; simpl; [|tauto].
  destruct (decide (name = n)) as [<-|Hne].
  - rewrite lookup_insert_eq. intros [= ->]. right. split; reflexivity.
  - rewrite lookup_insert_ne by exact Hne. tauto.
Qed.

Lemma resolutions_origin (steps : list (Database * string)) (n : string)
    (cache : gmap string Table) (tbl : Table) :
  resolutions steps cache !! n = Some tbl ->
  cache !! n = Some tbl \/
  exists db, In (db, n) steps /\ reflect db n = Ok tbl.
Proof.
  revert cache. induction steps as [|[db name] steps IH]; intros cache; simpl.
  - tauto.
  - intros H. apply IH in H as [H | (db' & Hin & Hr)].
    + apply get_table_origin in H as [H | [-> Hr]]; [tauto|].
      right. exists db. split; [left; reflexivity | exact Hr].
    + right. exists db'. split; [right; exact Hin | exact Hr].
Qed.

(** Against one database, a cache grown from the empty one holds exactly
    what reflection gives. *)
Lemma resolve_all_sound (db : Database) (names : list string) (n : string) (tbl : Table) :
  resolve_all db names ∅ !! n = Some tbl -> reflect db n = Ok tbl.
Proof.
  unfold resolve_all. intros H.
  apply resolutions_origin in H as [H | (db' & Hin & Hr)].
  - rewrite lookup_empty in H. discriminate.
  - apply in_map_iff in Hin as (x & [= <- <-] & _). exact Hr.
Qed.

(** ** Facts about the handler *)

(** Resolution itself runs no statement. *)
Lemma get_table_never_executes db name cache :
  never_executed (get_table db name cache).2.
Proof.
  unfold never_executed, get_table. intros stmt.
  destruct (cache !! name); simpl; [tauto|].
  destruct (reflect db name); simpl; intros [H|[]]; discriminate.
Qed.

Section HandlerFacts.

Context (lower : string -> string) (py_str : value -> string).

Lemma query_reflect_fails db req cache err cache1 io1 :
  get_table db (table req) cache = (Raise err, cache1, io1) ->
  query lower py_str db req cache =
    (raise400 ("Table not found or reflection error: " +:+ message err),
     cache1, io1).
Proof. intros H. unfold query. now rewrite H. Qed.

Lemma query_build_fails db req cache tbl cache1 io1 e :
  get_table db (table req) cache = (Ok tbl, cache1, io1) ->
  build_statement lower py_str tbl req = Raise e ->
  query lower py_str db req cache = (Raise e, cache1, io1).
Proof. intros H Hb. unfold query. now rewrite H, Hb. Qed.

Lemma query_executes db req cache tbl cache1 io1 stmt :
  get_table db (table req) cache = (Ok tbl, cache1, io1) ->
  build_statement lower py_str tbl req = Ok stmt ->
  query lower py_str db req cache =
    (match execute db stmt with
     | Ok rows => Ok rows
     | Raise err => Raise (Http (mkHTTPException 500 (message err)))
     end, cache1, io1 ++ [IOExecute stmt]).
Proof.
  intros H Hb. unfold query. rewrite H, Hb.
  destruct (execute db stmt); reflexivity.
Qed.

(** The handler changes the cache only through [get_table]. *)
Lemma query_cache db req cache :
  (query lower py_str db req cache).1.2 = (get_table db (table req) cache).1.2.
Proof.
  unfold query.
  destruct (get_table db (table req) cache) as [[[tbl|err] cache1] io1]; simpl;
    [|reflexivity].
  destruct (build_statement lower py_str tbl req) as [stmt|e]; simpl; [|reflexivity].
  destruct (execute db stmt); reflexivity.
Qed.

End HandlerFacts.

(** A request one of whose filter terms cannot compile never reaches the
    database with a statement: it ends in an exception. *)
Lemma query_blocked_filter (lower : string -> string) (py_str : value -> string)
    (db : Database) (req : QueryRequest) (cache : gmap string Table)
    (f : FilterItem) :
  In f (default [] (filters req)) ->
  (forall tbl, is_ok (_apply_filter_clause lower py_str tbl f) = false) ->
  exists e,
    (query lower py_str db req cache).1.1 = Raise e /\
    never_executed (query lower py_str db req cache).2.
Proof.
  intros Hin Hbad.
  pose proof (get_table_never_executes db (table req) cache) as Hio.
  destruct (get_table db (table req) cache) as [[[tbl|err] cache1] io1] eqn:Hg.
  - destruct (build_statement lower py_str tbl req) as [stmt|e] eqn:Hb.
    + exfalso. apply build_statement_ok in Hb as (gs & ms & cs & _ & _ & Hf & _).
      unfold filter_loop in Hf.
      destruct (filters req) as [[|f0 fs]|]; simpl in Hin; try contradiction.
      cbv [default from_option id list_truthy] in Hf.
      assert (Hin' : In f (f0 :: fs)) by exact Hin.
      pose proof (map_result_blocked _ _ f Hin' (Hbad tbl)) as Hno.
      rewrite Hf in Hno. discriminate.
    + rewrite (query_build_fails lower py_str db req cache tbl cache1 io1 e Hg Hb).
      exists e. split; [reflexivity | exact Hio].
  - rewrite (query_reflect_fails lower py_str db req cache err cache1 io1 Hg).
    eexists. split; [reflexivity | exact Hio].
Qed.

(** Grouping columns are never aggregates. *)
Lemma group_loop_no_aggregate (tbl : Table) (req : QueryRequest) (gs : list expr) :
  group_loop tbl req = Ok gs -> List.filter is_aggregate gs = [].
Proof.
  unfold group_loop. destruct (list_truthy (group_by req)).
  2:{ intros [= <-]. reflexivity. }
  intros H. apply map_result_ok in H.
  induction H as [|g e l gs' Hg _ IH]; [reflexivity|].
  simpl. apply resolve_group_shape in Hg as [[_ ->] | [_ (c & _ & ->)]];
    simpl; exact IH.
Qed.

(** * The claims *)

(** C1, as amended.  For a filter term whose column exists on the table,
    [_apply_filter_clause] lower-cases the operator and looks it up among
    [=, eq, !=, ne, >, <, >=, <=, in, like]; the words [gt], [lt], [gte]
    and [lte] are not in the table, and an operator outside it ends in the
    400 "Unsupported filter op".  [like] compiles to the pattern match on
    [str(value)]; [in] with a value that is not a list ends in the 400
    "Value for 'in' must be a list", and with a list that holds no null
    compiles to the set membership with the list as bound parameter; each
    of the six comparisons, with a value that is neither null nor a
    boolean, compiles to that comparison with the value as bound
    parameter; and [=], [!=] with null compile to [IS NULL], [IS NOT NULL],
    with a boolean to the comparison with the constant. *)
Theorem C1_operator_dispatch (lower : string -> string)
    (py_str : value -> string) (tbl : Table) (f : FilterItem) (col : Column) :
  c_get tbl (f_column f) = Some col ->
  let result := _apply_filter_clause lower py_str tbl f in
  let op := supported_operator (lower (f_op f)) in
  (op = None -> result = raise400 ("Unsupported filter op: " +:+ f_op f)) /\
  (op = Some op_like ->
   result =
     Ok (EBinary op_like (EColumn col) (EBind (VStr (py_str (f_value f)))))) /\
  (op = Some op_in -> is_list (f_value f) = false ->
   result = raise400 "Value for 'in' must be a list") /\
  (op = Some op_in -> is_list (f_value f) = true ->
   existsb is_none (list_items (f_value f)) = false ->
   result = Ok (EBinary op_in (EColumn col) (EBind (f_value f)))) /\
  (forall o, op = Some o -> In o [op_eq; op_ne; op_gt; op_lt; op_ge; op_le] ->
   is_none_or_bool (f_value f) = false ->
   result = Ok (EBinary o (EColumn col) (EBind (f_value f)))) /\
  (forall o, op = Some o -> In o [op_eq; op_ne] ->
   is_none_or_bool (f_value f) = true ->
   result =
     Ok (match f_value f with
         | VBool b => EBinary o (EColumn col) (if b then ETrue else EFalse)
         | _ => EBinary (match o with op_eq => op_is | _ => op_is_not end)
                  (EColumn col) ENull
         end)) /\
  Forall (fun w => supported_operator w = None) ["gt"; "lt"; "gte"; "lte"].
Proof.
  intros Hcol result op. subst result op.
  rewrite (apply_filter_clause_dispatch lower py_str tbl f col Hcol).
  split; [|split; [|split; [|split; [|split; [|split]]]]].
  - intros ->. reflexivity.
  - intros ->. reflexivity.
  - intros -> ->. reflexivity.
  - intros -> Hl Hn. rewrite Hl, (column_in_plain col _ Hn).
    destruct (f_value f); try discriminate Hl. reflexivity.
  - intros o -> Hin Hv. simpl in Hin.
    rewrite (column_compare_bindable o col _ Hv).
    destruct Hin as [<-|[<-|[<-|[<-|[<-|[<-|[]]]]]]]; reflexivity.
  - intros o -> Hin Hv. simpl in Hin.
    destruct (f_value f) as [|b| | | | |]; try discriminate Hv;
      destruct Hin as [<-|[<-|[]]]; reflexivity.
  - repeat constructor.
Qed.

Lemma C1_operator_dispatch_witness :
  c_get demo_table "revenue" = Some (mkColumn "revenue" "NUMERIC") /\
  _apply_filter_clause PyStr.lower demo_str demo_table
    (mkFilterItem "revenue" ">=" (VInt 10)) =
    Ok (EBinary op_ge (EColumn (mkColumn "revenue" "NUMERIC")) (EBind (VInt 10))).
Proof.
  split; [reflexivity|].
  refine (proj1 (proj2 (proj2 (proj2 (proj2
            (C1_operator_dispatch PyStr.lower demo_str demo_table
               (mkFilterItem "revenue" ">=" (VInt 10))
               (mkColumn "revenue" "NUMERIC") eq_refl)))))
            op_ge eq_refl _ eq_refl).
  simpl. tauto.
Defined.

(** C1 as stated fails: [gte] is in the specification's operator set and
    [revenue] is a column of the table, yet the term is refused as an
    unsupported operator; and [EQ], which is outside the set, compiles. *)
Lemma C1_word_operators_rejected :
  spec_supported_operator "gte" = Some op_ge /\
  c_get demo_table "revenue" = Some (mkColumn "revenue" "NUMERIC") /\
  _apply_filter_clause PyStr.lower demo_str demo_table
    (mkFilterItem "revenue" "gte" (VInt 10)) =
    raise400 "Unsupported filter op: gte" /\
  spec_supported_operator "EQ" = None /\
  _apply_filter_clause PyStr.lower demo_str demo_table
    (mkFilterItem "revenue" "EQ" (VInt 10)) =
    Ok (EBinary op_eq (EColumn (mkColumn "revenue" "NUMERIC")) (EBind (VInt 10))).
Proof. repeat split. Qed.

(** C2, as amended.  A filter term that compiles gives a clause with no
    literal SQL fragment in it.  Under [like] the clause binds
    [str(value)]; under any other operator a value that is neither null nor
    a boolean, nor a list holding a null, is the clause's one bound
    parameter, while null, true and false are not bound: the clause then
    compares the column with the constant, and has no parameter.  For
    values that are bound, the clause with its parameter blanked is the
    same for any two values under the same column and operator. *)
Theorem C2_values_are_bound (lower : string -> string)
    (py_str : value -> string) (tbl : Table) (f : FilterItem) (e : expr) :
  _apply_filter_clause lower py_str tbl f = Ok e ->
  text_fragments e = [] /\
  (String.eqb (lower (f_op f)) "like" = true ->
   bound_values e = [VStr (py_str (f_value f))]) /\
  (String.eqb (lower (f_op f)) "like" = false ->
   bindable (f_value f) = true -> bound_values e = [f_value f]) /\
  (String.eqb (lower (f_op f)) "like" = false ->
   is_none_or_bool (f_value f) = true ->
   bound_values e = [] /\
   exists o col,
     c_get tbl (f_column f) = Some col /\
     e = EBinary o (EColumn col)
           (match f_value f with
            | VBool true => ETrue
            | VBool false => EFalse
            | _ => ENull
            end)) /\
  (forall (f' : FilterItem) (e' : expr),
     f_column f' = f_column f ->
     lower (f_op f') = lower (f_op f) ->
     _apply_filter_clause lower py_str tbl f' = Ok e' ->
     String.eqb (lower (f_op f)) "like" = true \/
     (bindable (f_value f) = true /\ bindable (f_value f') = true) ->
     skeleton e' = skeleton e).
Proof.
  intros H.
  destruct (apply_filter_clause_ok lower py_str tbl f e H)
    as (o & col & Hcol & Ho & Htext & Hbound).
  split; [exact Htext|].
  unfold filter_parameters in Hbound.
  split; [|split; [|split]].
  - intros Hlike. now rewrite Hlike in Hbound.
  - intros Hlike Hb. rewrite Hlike in Hbound.
    unfold bindable in Hb. apply andb_prop in Hb as [Hb1 Hb2].
    apply negb_true_iff in Hb1, Hb2. rewrite Hb1, Hb2 in Hbound.
    destruct (String.eqb (lower (f_op f)) "in"); exact Hbound.
  - intros Hlike Hv.
    rewrite (apply_filter_clause_dispatch lower py_str tbl f col Hcol), Ho in H.
    assert (Hnl : o <> op_like).
    { intros ->. apply supported_like in Ho. congruence. }
    destruct (f_value f) as [|b| | | | |] eqn:Hval; try discriminate Hv.
    + destruct o; try congruence; try discriminate H;
        injection H as <-; (split; [reflexivity|]);
        eexists _, col; (split; [exact Hcol | reflexivity]).
    + destruct o; try congruence; try discriminate H;
        injection H as <-; (split; [destruct b; reflexivity|]);
        eexists _, col; (split; [exact Hcol|]); destruct b; reflexivity.
  - intros f' e' Hc Hop H' Hb.
    assert (Hb1 : String.eqb (lower (f_op f)) "like" = true \/
                  bindable (f_value f) = true) by tauto.
    assert (Hb2 : String.eqb (lower (f_op f')) "like" = true \/
                  bindable (f_value f') = true) by (rewrite Hop; tauto).
    destruct (apply_filter_clause_skeleton lower py_str tbl f e H Hb1)
      as (o1 & c1 & Hc1 & Ho1 & ->).
    destruct (apply_filter_clause_skeleton lower py_str tbl f' e' H' Hb2)
      as (o2 & c2 & Hc2 & Ho2 & ->).
    rewrite Hc, Hc1 in Hc2. rewrite Hop, Ho1 in Ho2.
    injection Hc2 as <-. injection Ho2 as <-. reflexivity.
Qed.

Lemma C2_values_are_bound_witness :
  _apply_filter_clause PyStr.lower demo_str demo_table
    (mkFilterItem "status" "LIKE" (VStr "x' OR '1'='1")) =
    Ok (EBinary op_like (EColumn (mkColumn "status" "VARCHAR"))
          (EBind (VStr "x' OR '1'='1"))) /\
  text_fragments
    (EBinary op_like (EColumn (mkColumn "status" "VARCHAR"))
       (EBind (VStr "x' OR '1'='1"))) = [] /\
  bound_values
    (EBinary op_like (EColumn (mkColumn "status" "VARCHAR"))
       (EBind (VStr "x' OR '1'='1"))) = [VStr "x' OR '1'='1"].
Proof.
  split; [reflexivity|].
  pose (H := C2_values_are_bound PyStr.lower demo_str demo_table
               (mkFilterItem "status" "LIKE" (VStr "x' OR '1'='1")) _ eq_refl).
  exact (conj (proj1 H) (proj1 (proj2 H) eq_refl)).
Defined.

(** C2 as stated fails: the term [status = null] is well-formed and its
    operator is supported, yet the clause is [status IS NULL], which
    carries no bound parameter; likewise [status != true] compares with the
    constant [true]. *)
Lemma C2_null_is_not_bound :
  _apply_filter_clause PyStr.lower demo_str demo_table
    (mkFilterItem "status" "=" VNone) =
    Ok (EBinary op_is (EColumn (mkColumn "status" "VARCHAR")) ENull) /\
  bound_values (EBinary op_is (EColumn (mkColumn "status" "VARCHAR")) ENull) =
    [] /\
  _apply_filter_clause PyStr.lower demo_str demo_table
    (mkFilterItem "status" "!=" (VBool true)) =
    Ok (EBinary op_ne (EColumn (mkColumn "status" "VARCHAR")) ETrue) /\
  bound_values (EBinary op_ne (EColumn (mkColumn "status" "VARCHAR")) ETrue) =
    [].
Proof. repeat split. Qed.

(** C3, as amended.  A grouping specifier is raw exactly when an opening
    parenthesis, the marker [::] or a space character occurs anywhere in
    it.  A raw specifier becomes the literal fragment [text(g)], verbatim
    and with no bound parameter; any other specifier is looked up on the
    table and is that column, or ends in the 400 "Unknown group_by column"
    when the table has no such column. *)
Theorem C3_grouping_classification (tbl : Table) (g : string) :
  (is_raw g = true <->
   substring_of "(" g \/ substring_of "::" g \/ substring_of " " g) /\
  (is_raw g = true ->
   resolve_group tbl g = Ok (EText g) /\
   text_fragments (EText g) = [g] /\ bound_values (EText g) = []) /\
  (is_raw g = false ->
   resolve_group tbl g =
     match c_get tbl g with
     | Some c => Ok (EColumn c)
     | None => http400 ("Unknown group_by column: " +:+ g)
     end).
Proof.
  split; [apply is_raw_iff|].
  unfold resolve_group. split; intros ->.
  - repeat split.
  - destruct (c_get tbl g); reflexivity.
Qed.

Lemma C3_grouping_classification_witness :
  is_raw "date_trunc('day', created_at)" = true /\
  resolve_group demo_table "date_trunc('day', created_at)" =
    Ok (EText "date_trunc('day', created_at)") /\
  is_raw "region" = false /\
  resolve_group demo_table "region" = Ok (EColumn (mkColumn "region" "VARCHAR")).
Proof.
  split; [reflexivity|]. split.
  - exact (proj1 (proj1 (proj2 (C3_grouping_classification demo_table
                                  "date_trunc('day', created_at)")) eq_refl)).
  - split; [reflexivity|].
    exact (proj2 (proj2 (C3_grouping_classification demo_table "region"))
             eq_refl).
Defined.

(** C3 as stated fails: a closing parenthesis, or a tab between two words,
    makes a specifier raw in the specification's reading, but [query] sends
    both to the column lookup; a leading space is not internal whitespace,
    but [query] takes the specifier as raw. *)
Lemma C3_heuristic_differs :
  spec_is_raw "n)" = true /\ is_raw "n)" = false /\
  resolve_group demo_table "n)" = http400 "Unknown group_by column: n)" /\
  spec_is_raw (String "a" (String "009" "b")) = true /\
  is_raw (String "a" (String "009" "b")) = false /\
  spec_is_raw " region" = false /\ is_raw " region" = true /\
  resolve_group demo_table " region" = Ok (EText " region").
Proof. repeat split. Qed.

(** C4: the claim fails on the code.  [get_table] reflects through the
    [AsyncConnection] of [engine.begin()], which the library refuses to
    inspect, so reflection raises for every name, present in the database
    or not.  Then no resolution ever succeeds: the cache stays empty
    whatever was resolved before, [get_table] raises after one reflection
    attempt, and [query] answers 400 "Table not found or reflection error"
    for every table. *)
Theorem C4_reflection_never_succeeds (lower : string -> string)
    (py_str : value -> string) (db : Database) (names : list string)
    (name : string) :
  never_reflects db ->
  resolve_all db names ∅ = ∅ /\
  exists err,
    reflect db name = Raise err /\
    get_table db name (resolve_all db names ∅) =
      (Raise err, ∅, [IOReflect name]) /\
    forall req, table req = name ->
      query lower py_str db req (resolve_all db names ∅) =
        (raise400 ("Table not found or reflection error: " +:+ message err),
         ∅, [IOReflect name]).
Proof.
  intros Hnever.
  assert (Hempty : resolve_all db names ∅ = ∅).
  { unfold resolve_all.
    induction names as [|n names IH]; [reflexivity|].
    simpl. rewrite get_table_miss by apply lookup_empty.
    specialize (Hnever n). destruct (reflect db n); [discriminate|].
    exact IH. }
  split; [exact Hempty|]. rewrite Hempty.
  pose proof (Hnever name) as Hn.
  destruct (reflect db name) as [t|err] eqn:Hr; [discriminate|].
  exists err. split; [reflexivity|].
  assert (Hg : get_table db name ∅ = (Raise err, ∅, [IOReflect name])).
  { rewrite get_table_miss by apply lookup_empty. now rewrite Hr. }
  split; [exact Hg|].
  intros req <-. apply query_reflect_fails, Hg.
Qed.

Lemma C4_reflection_never_succeeds_witness :
  never_reflects async_db /\
  query PyStr.lower demo_str async_db demo_request
    (resolve_all async_db ["sales"; "sales"] ∅) =
    (raise400
       ("Table not found or reflection error: " +:+
        "Inspection on an AsyncConnection is currently not supported."),
     ∅, [IOReflect "sales"]).
Proof.
  assert (H : never_reflects async_db) by (intros n; reflexivity).
  split; [exact H|].
  destruct (C4_reflection_never_succeeds PyStr.lower demo_str async_db
              ["sales"; "sales"] "sales" H) as (_ & err & Herr & _ & Hq).
  injection Herr as <-. exact (Hq demo_request eq_refl).
Defined.

(** C5, as amended.  For a filter term whose column exists on the table,
    whose operator lower-cases to [in] and whose value is not a list,
    [_apply_filter_clause] raises the 400 "Value for 'in' must be a list";
    and a request that carries a term with such an operator and value,
    whatever its column, ends in an exception with no statement run. *)
Theorem C5_in_requires_list (lower : string -> string)
    (py_str : value -> string) (tbl : Table) (f : FilterItem) (col : Column) :
  c_get tbl (f_column f) = Some col ->
  lower (f_op f) = "in" ->
  is_list (f_value f) = false ->
  _apply_filter_clause lower py_str tbl f =
    raise400 "Value for 'in' must be a list" /\
  forall (db : Database) (req : QueryRequest) (cache : gmap string Table),
    In f (default [] (filters req)) ->
    exists e,
      (query lower py_str db req cache).1.1 = Raise e /\
      never_executed (query lower py_str db req cache).2.
Proof.
  intros Hcol Hop Hval. split.
  - rewrite (apply_filter_clause_dispatch lower py_str tbl f col Hcol), Hop.
    cbn. now rewrite Hval.
  - intros db req cache Hin.
    apply (query_blocked_filter lower py_str db req cache f Hin).
    intros t. destruct (c_get t (f_column f)) as [c|] eqn:Hc.
    + rewrite (apply_filter_clause_dispatch lower py_str t f c Hc), Hop.
      cbn. now rewrite Hval.
    + now rewrite apply_filter_clause_unknown_column.
Qed.

Lemma C5_in_requires_list_witness :
  c_get demo_table "status" = Some (mkColumn "status" "VARCHAR") /\
  PyStr.lower "IN" = "in" /\ is_list (VStr "open") = false /\
  _apply_filter_clause PyStr.lower demo_str demo_table
    (mkFilterItem "status" "IN" (VStr "open")) =
    raise400 "Value for 'in' must be a list".
Proof.
  split; [reflexivity|]. split; [reflexivity|]. split; [reflexivity|].
  exact (proj1 (C5_in_requires_list PyStr.lower demo_str demo_table
                  (mkFilterItem "status" "IN" (VStr "open"))
                  (mkColumn "status" "VARCHAR") eq_refl eq_refl eq_refl)).
Defined.

(** C5 as stated fails: the operator is [in] and the value is not a list,
    but the table has no column [owner], and the term is refused for its
    column, not for its value. *)
Lemma C5_unknown_column_first :
  is_list (VInt 5) = false /\ c_get demo_table "owner" = None /\
  _apply_filter_clause PyStr.lower demo_str demo_table
    (mkFilterItem "owner" "in" (VInt 5)) = raise400 "Unknown column: owner".
Proof. repeat split. Qed.

(** C6: the claim fails on the code.  A filter term that compares a column
    of the table with null, true or false under [>], [<], [>=] or [<=] makes
    the library raise [ArgumentError] inside [_apply_filter_clause], where
    no [try] surrounds it.  When the table resolves and everything before
    the term compiles, the request ends in that exception: it is not an
    [HTTPException], so no 4xx is answered, and no statement was run, so it
    is no database failure either. *)
Theorem C6_library_error_escapes (lower : string -> string)
    (py_str : value -> string) (db : Database) (req : QueryRequest)
    (cache : gmap string Table) (tbl : Table) (pre : list FilterItem)
    (f : FilterItem) (post : list FilterItem) (col : Column) :
  (get_table db (table req) cache).1.1 = Ok tbl ->
  is_ok (group_loop tbl req) = true ->
  is_ok (metric_loop lower tbl req) = true ->
  filters req = Some (pre ++ f :: post) ->
  Forall (fun x => is_ok (_apply_filter_clause lower py_str tbl x) = true) pre ->
  c_get tbl (f_column f) = Some col ->
  In (lower (f_op f)) ordering_words ->
  is_none_or_bool (f_value f) = true ->
  (query lower py_str db req cache).1.1 = Raise (Unhandled ArgumentError) /\
  never_executed (query lower py_str db req cache).2.
Proof.
  intros Hres Hgs Hms Hfs Hpre Hcol Hop Hv.
  assert (Hf : _apply_filter_clause lower py_str tbl f =
               Raise (Unhandled ArgumentError)).
  { rewrite (apply_filter_clause_dispatch lower py_str tbl f col Hcol).
    unfold ordering_words in Hop. simpl in Hop.
    destruct (f_value f) as [|b| | | | |]; try discriminate Hv;
      destruct Hop as [<-|[<-|[<-|[<-|[]]]]]; reflexivity. }
  assert (Hb : build_statement lower py_str tbl req =
               Raise (Unhandled ArgumentError)).
  { rewrite build_statement_unfold.
    destruct (group_loop tbl req) as [gs|]; [|discriminate]. cbn [lift_http bind].
    destruct (metric_loop lower tbl req) as [ms|]; [|discriminate].
    cbn [lift_http bind].
    unfold filter_loop. rewrite Hfs.
    replace (list_truthy (Some (pre ++ f :: post))) with true
      by (destruct pre; reflexivity).
    cbn [default from_option id].
    assert (Hm : map_result (_apply_filter_clause lower py_str tbl)
                   (pre ++ f :: post) = Raise (Unhandled ArgumentError)).
    { clear Hfs. induction Hpre as [|x pre Hx _ IH]; simpl.
      - now rewrite Hf.
      - destruct (_apply_filter_clause lower py_str tbl x); [|discriminate].
        simpl. now rewrite IH. }
    now rewrite Hm. }
  pose proof (get_table_never_executes db (table req) cache) as Hio.
  destruct (get_table db (table req) cache) as [[r cache1] io1] eqn:Hg.
  cbn [fst snd] in Hres, Hio. subst r.
  rewrite (query_build_fails lower py_str db req cache tbl cache1 io1 _ Hg Hb).
  split; [reflexivity | exact Hio].
Qed.

Lemma C6_library_error_escapes_witness :
  (get_table async_db "sales" sales_cache).1.1 = Ok demo_table /\
  In (PyStr.lower ">") ordering_words /\ is_none_or_bool VNone = true /\
  (query PyStr.lower demo_str async_db
     (mkQueryRequest "sales" None None
        (Some [mkFilterItem "revenue" ">" VNone]) (Some 1000))
     sales_cache).1.1 = Raise (Unhandled ArgumentError).
Proof.
  split; [reflexivity|]. split; [left; reflexivity|]. split; [reflexivity|].
  exact (proj1 (C6_library_error_escapes PyStr.lower demo_str async_db
                  (mkQueryRequest "sales" None None
                     (Some [mkFilterItem "revenue" ">" VNone]) (Some 1000))
                  sales_cache demo_table []
                  (mkFilterItem "revenue" ">" VNone) []
                  (mkColumn "revenue" "NUMERIC")
                  eq_refl eq_refl eq_refl eq_refl
                  (List.Forall_nil _) eq_refl
                  (or_introl eq_refl) eq_refl)).
Defined.

(** C7.  When the request's metrics are absent or empty, the statement that
    is built selects the grouping columns followed by one more column,
    [count()] labelled "count": this is the only aggregate of the select
    list, and the statement has one condition for each filter term of the
    request, in request order, each the clause that term compiles to. *)
Theorem C7_implicit_count (lower : string -> string)
    (py_str : value -> string) (tbl : Table)
    (req : QueryRequest) (stmt : Statement) :
  metrics req = None \/ metrics req = Some [] ->
  build_statement lower py_str tbl req = Ok stmt ->
  sel_list stmt = group_by_clause stmt ++ [ELabel (EFunc "count" None) "count"] /\
  List.filter is_aggregate (sel_list stmt) =
    [ELabel (EFunc "count" None) "count"] /\
  Forall2 (fun f c => _apply_filter_clause lower py_str tbl f = Ok c)
    (default [] (filters req)) (where_clauses stmt).
Proof.
  intros Hm Hb.
  apply build_statement_ok in Hb as (gs & ms & cs & Hg & Hms & Hf & ->).
  assert (ms = []) as ->.
  { unfold metric_loop in Hms. destruct Hm as [Hm|Hm]; rewrite Hm in Hms;
      injection Hms as <-; reflexivity. }
  cbn [sel_list group_by_clause where_clauses]. split; [reflexivity|].
  split.
  - rewrite List.filter_app, (group_loop_no_aggregate tbl req gs Hg).
    reflexivity.
  - unfold filter_loop in Hf.
    destruct (filters req) as [[|f0 fs]|];
      cbn [list_truthy default from_option id] in *.
    + injection Hf as <-. constructor.
    + apply map_result_ok, Hf.
    + injection Hf as <-. constructor.
Qed.

Lemma C7_implicit_count_witness :
  (metrics demo_request = None \/ metrics demo_request = Some []) /\
  build_statement PyStr.lower demo_str demo_table demo_request =
    Ok demo_statement /\
  List.filter is_aggregate (sel_list demo_statement) =
    [ELabel (EFunc "count" None) "count"].
Proof.
  split; [left; reflexivity|]. split; [reflexivity|].
  exact (proj1 (proj2 (C7_implicit_count PyStr.lower demo_str demo_table
                         demo_request demo_statement (or_introl eq_refl)
                         eq_refl))).
Defined.

(** C8.  For a request built from a body, the statement's limit clause is
    1000 when the body leaves [limit] out, is missing when the body gives
    [null] or [0], and is the given number otherwise. *)
Theorem C8_row_limit (lower : string -> string) (py_str : value -> string) (tbl : Table)
    (name : string) (gb : field (option (list string)))
    (ms : field (option (list Metric))) (fs : field (option (list FilterItem)))
    (lim : field (option Z)) (stmt : Statement) :
  build_statement lower py_str tbl (QueryRequest_init name gb ms fs lim) = Ok stmt ->
  limit_clause stmt =
    match lim with
    | Omitted => Some 1000
    | Given None => None
    | Given (Some 0) => None
    | Given (Some n) => Some n
    end.
Proof.
  intros Hb.
  apply build_statement_ok in Hb as (gs & sel & cs & _ & _ & _ & ->).
  cbn [limit_clause QueryRequest_init limit field_default].
  destruct lim as [|[[|n|n]|]]; reflexivity.
Qed.

Lemma C8_row_limit_witness :
  build_statement PyStr.lower demo_str demo_table demo_request = Ok demo_statement /\
  limit_clause demo_statement = Some 1000.
Proof.
  split; [reflexivity|].
  exact (C8_row_limit PyStr.lower demo_str demo_table "sales" Omitted Omitted
           (Given (Some [mkFilterItem "status" "=" (VStr "open")])) Omitted
           demo_statement eq_refl).
Defined.

(** C9.  A metric whose operation lower-cases to [count] and whose column
    the table lacks compiles all the same: the aggregate is [count] of the
    failed lookup's [None] ([count()] when the name is the empty string),
    under the given alias or [count_<column>].  With [sum], [avg], [max] or
    [min] the same column ends in the 400 "Unknown metric column".  A
    request with this count as its only metric, no grouping and no filters
    has its statement built and run. *)
Theorem C9_count_unknown_column (lower : string -> string) (tbl : Table)
    (m : Metric) (name : string) :
  lower (m_op m) = "count" ->
  m_column m = Some name ->
  c_get tbl name = None ->
  let built :=
    ELabel (EFunc "count" (if PyStr.truthy (Some name) then Some ENone else None))
      (PyStr.or_else (m_alias m)
         ("count_" +:+ PyStr.or_else (Some name) "all")) in
  compile_metric lower tbl m = Ok built /\
  (forall m',
     m_column m' = Some name -> name <> "" ->
     In (lower (m_op m')) ["sum"; "avg"; "max"; "min"] ->
     compile_metric lower tbl m' = http400 ("Unknown metric column: " +:+ name)) /\
  (forall py_str db cache req,
     (get_table db (table req) cache).1.1 = Ok tbl ->
     metrics req = Some [m] -> group_by req = None -> filters req = None ->
     exists stmt,
       build_statement lower py_str tbl req = Ok stmt /\
       sel_list stmt = [built] /\
       In (IOExecute stmt) (query lower py_str db req cache).2).
Proof.
  intros Hop Hcol Hmiss built. subst built.
  assert (Hc : compile_metric lower tbl m =
               Ok (ELabel (EFunc "count"
                             (if PyStr.truthy (Some name) then Some ENone else None))
                     (PyStr.or_else (m_alias m)
                        ("count_" +:+ PyStr.or_else (Some name) "all")))).
  { unfold compile_metric. rewrite Hop, Hcol. cbn [String.eqb default].
    change (String.eqb "count" "count") with true. cbn iota.
    destruct name as [|c name]; cbn.
    - reflexivity.
    - cbn in Hmiss. rewrite Hmiss. reflexivity. }
  split; [exact Hc|]. split.
  - intros m' Hcol' Hne Hin. unfold compile_metric. rewrite Hcol'.
    destruct name as [|c name]; [congruence|].
    cbn [PyStr.truthy negb default from_option id]. rewrite Hmiss.
    cbn in Hin. destruct Hin as [<-|[<-|[<-|[<-|[]]]]]; reflexivity.
  - intros py_str db cache req Hres Hms Hgb Hfs.
    destruct (get_table db (table req) cache) as [[r cache1] io1] eqn:Hg.
    cbn in Hres. subst r.
    assert (Hb : build_statement lower py_str tbl req =
                 Ok (if int_truthy (limit req)
                     then stmt_limit (select_from [ELabel (EFunc "count"
                             (if PyStr.truthy (Some name) then Some ENone else None))
                     (PyStr.or_else (m_alias m)
                        ("count_" +:+ PyStr.or_else (Some name) "all"))] tbl)
                            (limit req)
                     else select_from [ELabel (EFunc "count"
                             (if PyStr.truthy (Some name) then Some ENone else None))
                     (PyStr.or_else (m_alias m)
                        ("count_" +:+ PyStr.or_else (Some name) "all"))] tbl)).
    { unfold build_statement, group_loop, metric_loop, filter_loop.
      rewrite Hms, Hgb, Hfs.
      cbn [list_truthy default from_option id map_result bind lift_http].
      rewrite Hc. reflexivity. }
    eexists. split; [exact Hb|]. split.
    + destruct (int_truthy (limit req)); reflexivity.
    + rewrite (query_executes lower py_str db req cache tbl cache1 io1 _ Hg Hb).
      cbn [snd]. apply in_or_app. right. left. reflexivity.
Qed.

Lemma C9_count_unknown_column_witness :
  PyStr.lower "COUNT" = "count" /\ c_get demo_table "ghost" = None /\
  compile_metric PyStr.lower demo_table (mkMetric "COUNT" (Some "ghost") None) =
    Ok (ELabel (EFunc "count" (Some ENone)) "count_ghost").
Proof.
  split; [reflexivity|]. split; [reflexivity|].
  exact (proj1 (C9_count_unknown_column PyStr.lower demo_table
                  (mkMetric "COUNT" (Some "ghost") None) "ghost"
                  eq_refl eq_refl eq_refl)).
Defined.

(** C10.  A resolution that raises leaves the cache as it was, with no
    entry under the failed name, so the next resolution of that name goes
    to the database again.  And after any sequence of resolutions from the
    empty cache, and of requests too since [query] touches the cache only
    through [get_table], every entry of the cache is a table that a
    reflection of its name returned. *)
Theorem C10_cache_invariant :
  (forall db name cache err cache' io,
     get_table db name cache = (Raise err, cache', io) ->
     cache' = cache /\ cache' !! name = None /\
     forall db', (get_table db' name cache').2 = [IOReflect name]) /\
  (forall steps name tbl,
     resolutions steps ∅ !! name = Some tbl ->
     exists db, In (db, name) steps /\ reflect db name = Ok tbl) /\
  (forall lower py_str db req cache,
     (query lower py_str db req cache).1.2 = resolutions [(db, table req)] cache).
Proof.
  split; [|split].
  - intros db name cache err cache' io H.
    apply get_table_raise in H as (-> & Hmiss & _ & _).
    repeat split; [exact Hmiss|].
    intros db'. rewrite get_table_miss by exact Hmiss.
    destruct (reflect db' name); reflexivity.
  - intros steps name tbl H.
    apply resolutions_origin in H as [H|H]; [|exact H].
    rewrite lookup_empty in H. discriminate.
  - intros lower py_str db req cache. apply query_cache.
Qed.

Lemma C10_cache_invariant_witness :
  get_table demo_db "ghost" ∅ =
    (Raise (mkDBError "ghost"), ∅, [IOReflect "ghost"]) /\
  (∅ : gmap string Table) !! "ghost" = None /\
  forall db', (get_table db' "ghost" ∅).2 = [IOReflect "ghost"].
Proof.
  split; [reflexivity|].
  exact (proj2 (proj1 C10_cache_invariant demo_db "ghost" ∅
                  (mkDBError "ghost") ∅ [IOReflect "ghost"] eq_refl)).
Defined.

(** * Further properties of the compiler *)

(** ** The predicate compiler *)

(** X1.  A filter term whose value is not a list holding a null compiles
    exactly when the table has its column, its lower-cased operator is one
    of the ten of the operator table, for [in] its value is a list, and
    for [>], [<], [>=], [<=] its value is neither null nor a boolean. *)
Theorem filter_compiles_iff (lower : string -> string)
    (py_str : value -> string) (tbl : Table) (f : FilterItem) :
  existsb is_none (list_items (f_value f)) = false ->
  is_ok (_apply_filter_clause lower py_str tbl f) = true <->
  exists col o,
    c_get tbl (f_column f) = Some col /\
    supported_operator (lower (f_op f)) = Some o /\
    (o = op_in -> is_list (f_value f) = true) /\
    (In o [op_gt; op_lt; op_ge; op_le] -> is_none_or_bool (f_value f) = false).
Proof.
  intros Hnonull.
  destruct (c_get tbl (f_column f)) as [col|] eqn:Hcol.
  - rewrite (apply_filter_clause_dispatch lower py_str tbl f col Hcol).
    destruct (supported_operator (lower (f_op f))) as [o|] eqn:Ho.
    + pose proof (supported_range _ _ Ho) as [Hr1 Hr2].
      split.
      * intros H. exists col, o. split; [reflexivity|]. split; [reflexivity|].
        split.
        -- intros ->. destruct (is_list (f_value f)); [reflexivity|discriminate].
        -- intros Hin. simpl in Hin.
           destruct (f_value f) as [|b| | | | |]; try reflexivity;
             destruct Hin as [<-|[<-|[<-|[<-|[]]]]]; discriminate H.
      * intros (c & o' & _ & [= <-] & Hlist & Hord).
        destruct o; try congruence.
        -- destruct (f_value f) as [|[]| | | | |]; reflexivity.
        -- destruct (f_value f) as [|[]| | | | |]; reflexivity.
        -- assert (Hv : is_none_or_bool (f_value f) = false)
             by (apply Hord; simpl; tauto).
           now rewrite column_compare_bindable.
        -- assert (Hv : is_none_or_bool (f_value f) = false)
             by (apply Hord; simpl; tauto).
           now rewrite column_compare_bindable.
        -- assert (Hv : is_none_or_bool (f_value f) = false)
             by (apply Hord; simpl; tauto).
           now rewrite column_compare_bindable.
        -- assert (Hv : is_none_or_bool (f_value f) = false)
             by (apply Hord; simpl; tauto).
           now rewrite column_compare_bindable.
        -- rewrite (Hlist eq_refl), column_in_plain by exact Hnonull.
           reflexivity.
        -- reflexivity.
    + cbn. split; [discriminate | intros (c & o & _ & [=] & _)].
  - rewrite (apply_filter_clause_unknown_column lower py_str tbl f Hcol). cbn.
    split; [discriminate | intros (c & o & [=] & _)].
Qed.

Lemma filter_compiles_iff_witness :
  existsb is_none (list_items (VList [VInt 1; VStr "a"])) = false /\
  (is_ok (_apply_filter_clause PyStr.lower demo_str demo_table
            (mkFilterItem "status" "In" (VList [VInt 1; VStr "a"]))) = true <->
   exists col o,
     c_get demo_table "status" = Some col /\
     supported_operator (PyStr.lower "In") = Some o /\
     (o = op_in -> is_list (VList [VInt 1; VStr "a"]) = true) /\
     (In o [op_gt; op_lt; op_ge; op_le] ->
      is_none_or_bool (VList [VInt 1; VStr "a"]) = false)).
Proof.
  split; [reflexivity|].
  exact (filter_compiles_iff PyStr.lower demo_str demo_table
           (mkFilterItem "status" "In" (VList [VInt 1; VStr "a"])) eq_refl).
Defined.

(** ** The aggregate compiler *)

(** What a metric compiles to, whenever it compiles. *)
Lemma compile_metric_shape (lower : string -> string) (tbl : Table)
    (m : Metric) (e : expr) :
  compile_metric lower tbl m = Ok e ->
  e = ELabel
        (EFunc (lower (m_op m))
           (if PyStr.truthy (m_column m)
            then Some (column_arg (c_get tbl (default "" (m_column m))))
            else None))
        (PyStr.or_else (m_alias m)
           (lower (m_op m) +:+ "_" +:+ PyStr.or_else (m_column m) "all")).
Proof.
  unfold compile_metric.
  destruct (String.eqb (lower (m_op m)) "count") eqn:Hcount.
  - apply String.eqb_eq in Hcount. rewrite Hcount.
    destruct (PyStr.truthy (m_column m)); cbn; intros [= <-]; reflexivity.
  - destruct (PyStr.truthy (m_column m)); cbn [negb bind http400];
      [|discriminate].
    destruct (c_get tbl (default "" (m_column m))) as [col|]; [|discriminate].
    destruct (String.eqb (lower (m_op m)) "sum") eqn:E1;
      [apply String.eqb_eq in E1; rewrite E1; cbn; intros [= <-]; reflexivity|].
    destruct (String.eqb (lower (m_op m)) "avg") eqn:E2;
      [apply String.eqb_eq in E2; rewrite E2; cbn; intros [= <-]; reflexivity|].
    destruct (String.eqb (lower (m_op m)) "max") eqn:E3;
      [apply String.eqb_eq in E3; rewrite E3; cbn; intros [= <-]; reflexivity|].
    destruct (String.eqb (lower (m_op m)) "min") eqn:E4;
      [apply String.eqb_eq in E4; rewrite E4; cbn; intros [= <-]; reflexivity|].
    discriminate.
Qed.

Lemma truthy_some (o : option string) :
  PyStr.truthy o = true <-> exists name, o = Some name /\ name <> "".
Proof.
  destruct o as [[|c s]|]; simpl; split; try discriminate.
  - intros (name & [= <-] & Hne). congruence.
  - intros _. eexists. split; [reflexivity | discriminate].
  - reflexivity.
  - intros (name & H & _). discriminate.
Qed.

(** X2.  A metric compiles exactly when its lower-cased operation is
    [count], or it is one of [sum], [avg], [max], [min] and the metric names
    a non-empty column that the table has. *)
Theorem metric_compiles_iff (lower : string -> string) (tbl : Table)
    (m : Metric) :
  is_ok (compile_metric lower tbl m) = true <->
  lower (m_op m) = "count" \/
  (In (lower (m_op m)) ["sum"; "avg"; "max"; "min"] /\
   exists name c,
     m_column m = Some name /\ name <> "" /\ c_get tbl name = Some c).
Proof.
  unfold compile_metric.
  destruct (String.eqb (lower (m_op m)) "count") eqn:Hcount.
  - apply String.eqb_eq in Hcount. split; [intros _; left; exact Hcount|].
    intros _. destruct (PyStr.truthy (m_column m)); reflexivity.
  - apply String.eqb_neq in Hcount.
    destruct (PyStr.truthy (m_column m)) eqn:Ht; cbn [negb bind http400].
    + apply truthy_some in Ht as (name & Hname & Hne). rewrite Hname.
      cbn [default from_option id].
      destruct (c_get tbl name) as [col|] eqn:Hcol.
      * destruct (String.eqb (lower (m_op m)) "sum") eqn:E1;
        [|destruct (String.eqb (lower (m_op m)) "avg") eqn:E2;
          [|destruct (String.eqb (lower (m_op m)) "max") eqn:E3;
            [|destruct (String.eqb (lower (m_op m)) "min") eqn:E4]]];
        cbn.
        all: try (split; [intros _; right; split;
                            [|exists name, col; repeat split; assumption]
                         | reflexivity]).
        -- apply String.eqb_eq in E1. rewrite E1. simpl. tauto.
        -- apply String.eqb_eq in E2. rewrite E2. simpl. tauto.
        -- apply String.eqb_eq in E3. rewrite E3. simpl. tauto.
        -- apply String.eqb_eq in E4. rewrite E4. simpl. tauto.
        -- apply String.eqb_neq in E1, E2, E3, E4.
           split; [discriminate|].
           intros [H | [Hin _]]; [contradiction|].
           simpl in Hin. intuition congruence.
      * cbn. split; [discriminate|].
        intros [H | [_ (n & c & [= <-] & _ & Hc)]]; [contradiction|congruence].
    + split; [discriminate|].
      intros [H | [_ (n & c & Hn & Hne & _)]]; [contradiction|].
      assert (PyStr.truthy (m_column m) = true) by
        (apply truthy_some; exists n; split; assumption).
      congruence.
Qed.

(** X3.  A compiled metric is the function named by the lower-cased
    operation, applied to the metric's column when one is given, under the
    metric's alias when that is a non-empty string and otherwise under
    [<op>_<column>], or [<op>_all] without a column; it holds no literal SQL
    and no bound parameter. *)
Theorem metric_alias_and_shape (lower : string -> string) (tbl : Table)
    (m : Metric) (e : expr) :
  compile_metric lower tbl m = Ok e ->
  e = ELabel
        (EFunc (lower (m_op m))
           (if PyStr.truthy (m_column m)
            then Some (column_arg (c_get tbl (default "" (m_column m))))
            else None))
        (match m_alias m with
         | Some (String c a) => String c a
         | _ => lower (m_op m) +:+ "_" +:+
                match m_column m with
                | Some (String c n) => String c n
                | _ => "all"
                end
         end) /\
  is_aggregate e = true /\ text_fragments e = [] /\ bound_values e = [].
Proof.
  intros H. apply compile_metric_shape in H. subst e. split.
  - destruct (m_alias m) as [[|c a]|]; destruct (m_column m) as [[|c' n]|];
      reflexivity.
  - repeat split.
    + destruct (PyStr.truthy (m_column m)); [|reflexivity].
      destruct (c_get tbl (default "" (m_column m))); reflexivity.
    + destruct (PyStr.truthy (m_column m)); [|reflexivity].
      destruct (c_get tbl (default "" (m_column m))); reflexivity.
Qed.

Lemma metric_alias_and_shape_witness :
  compile_metric PyStr.lower demo_table (mkMetric "Count" None (Some "")) =
    Ok (ELabel (EFunc "count" None) "count_all") /\
  compile_metric PyStr.lower demo_table (mkMetric "SUM" (Some "revenue") None) =
    Ok (ELabel (EFunc "sum" (Some (EColumn (mkColumn "revenue" "NUMERIC"))))
          "sum_revenue") /\
  is_aggregate
    (ELabel (EFunc "sum" (Some (EColumn (mkColumn "revenue" "NUMERIC"))))
       "sum_revenue") = true.
Proof.
  split; [reflexivity|]. split; [reflexivity|].
  exact (proj1 (proj2 (metric_alias_and_shape PyStr.lower demo_table
                         (mkMetric "SUM" (Some "revenue") None) _ eq_refl))).
Defined.

(** X4.  For an operation other than [count], the checks come in a fixed
    order: a missing or empty column is reported first ("needs a column",
    quoting the operation as sent), then an unknown column, and only for a
    column the table has is an unsupported operation reported. *)
Theorem metric_error_precedence (lower : string -> string) (tbl : Table)
    (m : Metric) :
  lower (m_op m) <> "count" ->
  (PyStr.truthy (m_column m) = false ->
   compile_metric lower tbl m =
     http400 ("Metric " +:+ m_op m +:+ " needs a column")) /\
  (forall name,
     m_column m = Some name -> name <> "" -> c_get tbl name = None ->
     compile_metric lower tbl m = http400 ("Unknown metric column: " +:+ name)) /\
  (forall name c,
     m_column m = Some name -> name <> "" -> c_get tbl name = Some c ->
     ~ In (lower (m_op m)) ["sum"; "avg"; "max"; "min"] ->
     compile_metric lower tbl m = http400 ("Unsupported metric op: " +:+ m_op m)).
Proof.
  intros Hcount. apply String.eqb_neq in Hcount.
  unfold compile_metric. rewrite Hcount. split; [|split].
  - intros ->. reflexivity.
  - intros name Hname Hne Hmiss.
    assert (Ht : PyStr.truthy (m_column m) = true) by
      (apply truthy_some; exists name; split; assumption).
    rewrite Ht, Hname. cbn [negb default from_option id]. rewrite Hmiss.
    reflexivity.
  - intros name c Hname Hne Hcol Hnot.
    assert (Ht : PyStr.truthy (m_column m) = true) by
      (apply truthy_some; exists name; split; assumption).
    rewrite Ht, Hname. cbn [negb default from_option id]. rewrite Hcol.
    simpl in Hnot.
    destruct (String.eqb (lower (m_op m)) "sum") eqn:E1;
      [apply String.eqb_eq in E1; exfalso; apply Hnot; auto|].
    destruct (String.eqb (lower (m_op m)) "avg") eqn:E2;
      [apply String.eqb_eq in E2; exfalso; apply Hnot; auto|].
    destruct (String.eqb (lower (m_op m)) "max") eqn:E3;
      [apply String.eqb_eq in E3; exfalso; apply Hnot; auto|].
    destruct (String.eqb (lower (m_op m)) "min") eqn:E4;
      [apply String.eqb_eq in E4; exfalso; apply Hnot; auto 6|].
    reflexivity.
Qed.

Lemma metric_error_precedence_witness :
  PyStr.lower "Median" <> "count" /\
  compile_metric PyStr.lower demo_table (mkMetric "Median" None None) =
    http400 "Metric Median needs a column" /\
  compile_metric PyStr.lower demo_table (mkMetric "Median" (Some "ghost") None) =
    http400 "Unknown metric column: ghost".
Proof.
  assert (H : PyStr.lower "Median" <> "count") by discriminate.
  split; [exact H|]. split.
  - exact (proj1 (metric_error_precedence PyStr.lower demo_table
                    (mkMetric "Median" None None) H) eq_refl).
  - refine (proj1 (proj2 (metric_error_precedence PyStr.lower demo_table
                            (mkMetric "Median" (Some "ghost") None) H))
              "ghost" eq_refl _ eq_refl).
    discriminate.
Defined.

(** ** The statement builder *)

(** A loop stops at its first failing item. *)
Lemma map_result_first_failure {E A B : Type} (f : A -> result E B)
    (pre : list A) (a : A) (post : list A) (e : E) :
  Forall (fun x => is_ok (f x) = true) pre ->
  f a = Raise e ->
  map_result f (pre ++ a :: post) = Raise e.
Proof.
  intros Hpre Ha. induction Hpre as [|x pre Hx _ IH]; simpl.
  - now rewrite Ha.
  - destruct (f x); [|discriminate]. simpl. now rewrite IH.
Qed.

Lemma list_truthy_app {A : Type} (pre : list A) (a : A) (post : list A) :
  list_truthy (Some (pre ++ a :: post)) = true.
Proof. destruct pre; reflexivity. Qed.

Lemma loop_items {E A B : Type} (f : A -> result E B)
    (o : option (list A)) (bs : list B) :
  (if list_truthy o then map_result f (default [] o) else Ok []) = Ok bs ->
  Forall2 (fun a b => f a = Ok b) (default [] o) bs.
Proof.
  destruct o as [[|a l]|]; cbn [list_truthy default from_option id].
  - intros [= <-]. constructor.
  - apply map_result_ok.
  - intros [= <-]. constructor.
Qed.

(** X5.  The builder fails fast, and in a fixed order: the first grouping
    specifier that does not resolve decides the error, whatever the metrics
    and filters are; with all grouping specifiers resolved, the first metric
    that does not compile decides it; with those compiled too, the first
    filter term that does not compile. *)
Theorem build_statement_first_failure (lower : string -> string)
    (py_str : value -> string) (tbl : Table) (req : QueryRequest) :
  (forall pre g post e,
     group_by req = Some (pre ++ g :: post) ->
     Forall (fun x => is_ok (resolve_group tbl x) = true) pre ->
     resolve_group tbl g = Raise e ->
     build_statement lower py_str tbl req = Raise (Http e)) /\
  (forall pre m post e,
     is_ok (group_loop tbl req) = true ->
     metrics req = Some (pre ++ m :: post) ->
     Forall (fun x => is_ok (compile_metric lower tbl x) = true) pre ->
     compile_metric lower tbl m = Raise e ->
     build_statement lower py_str tbl req = Raise (Http e)) /\
  (forall pre f post e,
     is_ok (group_loop tbl req) = true ->
     is_ok (metric_loop lower tbl req) = true ->
     filters req = Some (pre ++ f :: post) ->
     Forall (fun x => is_ok (_apply_filter_clause lower py_str tbl x) = true) pre ->
     _apply_filter_clause lower py_str tbl f = Raise e ->
     build_statement lower py_str tbl req = Raise e).
Proof.
  rewrite build_statement_unfold. split; [|split].
  - intros pre g post e Hgb Hpre Hg.
    unfold group_loop. rewrite Hgb, list_truthy_app.
    cbn [default from_option id].
    now rewrite (map_result_first_failure _ pre g post e Hpre Hg).
  - intros pre m post e Hgs Hms Hpre Hm.
    destruct (group_loop tbl req) as [gs|]; [|discriminate].
    cbn [bind lift_http].
    unfold metric_loop. rewrite Hms, list_truthy_app.
    cbn [default from_option id].
    now rewrite (map_result_first_failure _ pre m post e Hpre Hm).
  - intros pre f post e Hgs Hms Hfs Hpre Hf.
    destruct (group_loop tbl req) as [gs|]; [|discriminate].
    cbn [bind lift_http].
    destruct (metric_loop lower tbl req) as [ms|]; [|discriminate].
    cbn [bind lift_http].
    unfold filter_loop. rewrite Hfs, list_truthy_app.
    cbn [default from_option id].
    now rewrite (map_result_first_failure _ pre f post e Hpre Hf).
Qed.

Lemma build_statement_first_failure_witness :
  build_statement PyStr.lower demo_str demo_table
    (mkQueryRequest "sales" (Some ["region"; "ghost"; "phantom"])
       (Some [mkMetric "median" None None])
       (Some [mkFilterItem "nowhere" "~" VNone]) None) =
    raise400 "Unknown group_by column: ghost".
Proof.
  refine (proj1 (build_statement_first_failure PyStr.lower demo_str demo_table
                   (mkQueryRequest "sales" (Some ["region"; "ghost"; "phantom"])
                      (Some [mkMetric "median" None None])
                      (Some [mkFilterItem "nowhere" "~" VNone]) None))
            ["region"] "ghost" ["phantom"]
            (mkHTTPException 400 "Unknown group_by column: ghost")
            eq_refl _ eq_refl).
  repeat constructor.
Defined.

(** X6.  A built statement selects the resolved grouping specifiers in
    request order, then the compiled metrics in request order (the implicit
    count when there is none); it reads from the resolved table, groups by
    exactly the grouping specifiers, and has one condition per filter term,
    in request order. *)
Theorem build_statement_assembly (lower : string -> string) (py_str : value -> string) (tbl : Table)
    (req : QueryRequest) (stmt : Statement) :
  build_statement lower py_str tbl req = Ok stmt ->
  exists group_cols sel_cols,
    Forall2 (fun g e => resolve_group tbl g = Ok e)
      (default [] (group_by req)) group_cols /\
    Forall2 (fun m e => compile_metric lower tbl m = Ok e)
      (default [] (metrics req)) sel_cols /\
    Forall2 (fun f c => _apply_filter_clause lower py_str tbl f = Ok c)
      (default [] (filters req)) (where_clauses stmt) /\
    sel_list stmt =
      group_cols ++ (if decide (sel_cols = []) then [implicit_count]
                     else sel_cols) /\
    group_by_clause stmt = group_cols /\
    from_table stmt = tbl.
Proof.
  intros H.
  apply build_statement_ok in H as (gs & ms & cs & Hg & Hm & Hf & ->).
  exists gs, ms. cbn [sel_list where_clauses group_by_clause from_table].
  split; [apply loop_items, Hg|]. split; [apply loop_items, Hm|].
  split; [apply loop_items, Hf|].
  split; [|split; reflexivity].
  destruct ms; reflexivity.
Qed.

Lemma build_statement_assembly_witness :
  build_statement PyStr.lower demo_str demo_table demo_request = Ok demo_statement /\
  exists group_cols sel_cols,
    Forall2 (fun g e => resolve_group demo_table g = Ok e)
      (default [] (group_by demo_request)) group_cols /\
    Forall2 (fun m e => compile_metric PyStr.lower demo_table m = Ok e)
      (default [] (metrics demo_request)) sel_cols /\
    Forall2 (fun f c => _apply_filter_clause PyStr.lower demo_str demo_table f = Ok c)
      (default [] (filters demo_request)) (where_clauses demo_statement) /\
    sel_list demo_statement =
      group_cols ++ (if decide (sel_cols = []) then [implicit_count]
                     else sel_cols) /\
    group_by_clause demo_statement = group_cols /\
    from_table demo_statement = demo_table.
Proof.
  split; [reflexivity|].
  exact (build_statement_assembly PyStr.lower demo_str demo_table demo_request
           demo_statement eq_refl).
Defined.






(** * Further properties of the schema cache and the handler *)

Lemma cache_sound_empty (db : Database) : cache_sound db ∅.
Proof. intros n t H. rewrite lookup_empty in H. discriminate. Qed.

Lemma get_table_sound (db : Database) (name : string) (cache : gmap string Table) :
  cache_sound db cache -> cache_sound db (get_table db name cache).1.2.
Proof.
  intros Hs n t H. apply get_table_origin in H as [H | [-> H]].
  - apply Hs, H.
  - exact H.
Qed.

(** With a sound cache, resolution gives what reflection gives. *)
Lemma get_table_sound_result (db : Database) (name : string)
    (cache : gmap string Table) :
  cache_sound db cache ->
  (get_table db name cache).1.1 = reflect db name.
Proof.
  intros Hs. unfold get_table.
  destruct (cache !! name) as [t|] eqn:Hc; simpl.
  - symmetry. apply Hs, Hc.
  - destruct (reflect db name); reflexivity.
Qed.

Lemma get_table_caches (db : Database) (name : string)
    (cache : gmap string Table) (tbl : Table) :
  (get_table db name cache).1.1 = Ok tbl ->
  (get_table db name cache).1.2 !! name = Some tbl.
Proof.
  unfold get_table. destruct (cache !! name) as [t|] eqn:Hc; simpl.
  - intros [= <-]. exact Hc.
  - destruct (reflect db name); simpl; [|discriminate].
    intros [= <-]. apply lookup_insert_eq.
Qed.

(** The rows or the error of a request, as a function of the resolved
    table. *)
Lemma query_outcome (lower : string -> string) (py_str : value -> string) (db : Database)
    (req : QueryRequest) (cache : gmap string Table) :
  (query lower py_str db req cache).1.1 =
    match (get_table db (table req) cache).1.1 with
    | Raise err =>
        raise400 ("Table not found or reflection error: " +:+ message err)
    | Ok tbl =>
        match build_statement lower py_str tbl req with
        | Raise e => Raise e
        | Ok stmt =>
            match execute db stmt with
            | Ok rows => Ok rows
            | Raise err => Raise (Http (mkHTTPException 500 (message err)))
            end
        end
    end.
Proof.
  unfold query.
  destruct (get_table db (table req) cache) as [[[tbl|err] c] io]; simpl;
    [|reflexivity].
  destruct (build_statement lower py_str tbl req) as [stmt|e]; [|reflexivity].
  destruct (execute db stmt); reflexivity.
Qed.

(** X8.  Caching is transparent for an unchanged database: whenever every
    cache entry is what the database reflects for its name, a request gets
    the rows or the error it would get with an empty cache, and the cache
    it leaves behind has the same property. *)
Theorem cache_transparency (lower : string -> string) (py_str : value -> string) (db : Database)
    (req : QueryRequest) (cache : gmap string Table) :
  cache_sound db cache ->
  (query lower py_str db req cache).1.1 = (query lower py_str db req ∅).1.1 /\
  cache_sound db (query lower py_str db req cache).1.2.
Proof.
  intros Hs. split.
  - rewrite !query_outcome, !get_table_sound_result;
      [reflexivity | apply cache_sound_empty | exact Hs].
  - rewrite query_cache. apply get_table_sound, Hs.
Qed.

Lemma cache_transparency_witness :
  cache_sound demo_db (resolve_all demo_db ["sales"; "ghost"] ∅) /\
  (query PyStr.lower demo_str demo_db demo_request
     (resolve_all demo_db ["sales"; "ghost"] ∅)).1.1 =
    (query PyStr.lower demo_str demo_db demo_request ∅).1.1.
Proof.
  assert (H : cache_sound demo_db (resolve_all demo_db ["sales"; "ghost"] ∅))
    by (intros n t; apply resolve_all_sound).
  split; [exact H|].
  exact (proj1 (cache_transparency PyStr.lower demo_str demo_db demo_request _ H)).
Defined.

(** X9.  The I/O of one request is at most one reflection followed by at
    most one statement: a cached table is never reflected, an uncached one
    is reflected exactly once and first, and a statement is run exactly
    when the table resolved and the statement could be built; the statement
    run is the one built. *)
Theorem query_io_shape (lower : string -> string) (py_str : value -> string) (db : Database)
    (req : QueryRequest) (cache : gmap string Table) :
  let io := (query lower py_str db req cache).2 in
  let lookup := match cache !! table req with
                | Some _ => []
                | None => [IOReflect (table req)]
                end in
  match (get_table db (table req) cache).1.1 with
  | Raise _ => io = lookup
  | Ok tbl =>
      match build_statement lower py_str tbl req with
      | Raise _ => io = lookup
      | Ok stmt => io = lookup ++ [IOExecute stmt]
      end
  end.
Proof.
  unfold query, get_table.
  destruct (cache !! table req) as [t|] eqn:Hc; simpl.
  - destruct (build_statement lower py_str t req) as [stmt|e]; [|reflexivity].
    destruct (execute db stmt); reflexivity.
  - destruct (reflect db (table req)) as [t|err]; simpl; [|reflexivity].
    destruct (build_statement lower py_str t req) as [stmt|e]; [|reflexivity].
    destruct (execute db stmt); reflexivity.
Qed.

(** X10.  A request never drops or replaces a cache entry, and it leaves the
    table it names cached whenever that table resolved: also when the
    request is then refused for an unknown column or operator, or its
    statement fails in the database. *)
Theorem query_cache_growth (lower : string -> string) (py_str : value -> string) (db : Database)
    (req : QueryRequest) (cache : gmap string Table) :
  (forall n t, cache !! n = Some t ->
     (query lower py_str db req cache).1.2 !! n = Some t) /\
  (forall tbl, (get_table db (table req) cache).1.1 = Ok tbl ->
     (query lower py_str db req cache).1.2 !! table req = Some tbl) /\
  (forall n, n <> table req ->
     (query lower py_str db req cache).1.2 !! n = cache !! n).
Proof.
  rewrite query_cache. split; [|split].
  - intros n t. apply get_table_keeps.
  - intros tbl. apply get_table_caches.
  - intros n Hne. unfold get_table.
    destruct (cache !! table req); simpl; [reflexivity|].
    destruct (reflect db (table req)); simpl; [|reflexivity].
    apply lookup_insert_ne. congruence.
Qed.

Lemma query_cache_growth_witness :
  (query PyStr.lower demo_str demo_db
     (mkQueryRequest "sales" (Some ["ghost"]) None None None) ∅).1.1 =
    raise400 "Unknown group_by column: ghost" /\
  (query PyStr.lower demo_str demo_db
     (mkQueryRequest "sales" (Some ["ghost"]) None None None) ∅).1.2
    !! "sales" = Some demo_table.
Proof.
  split; [reflexivity|].
  exact (proj1 (proj2 (query_cache_growth PyStr.lower demo_str demo_db
                         (mkQueryRequest "sales" (Some ["ghost"]) None None None)
                         ∅)) demo_table eq_refl).
Defined.

Lemma resolve_all_complete (db : Database) (names : list string)
    (cache : gmap string Table) (n : string) (tbl : Table) :
  cache_sound db cache -> In n names -> reflect db n = Ok tbl ->
  resolve_all db names cache !! n = Some tbl.
Proof.
  unfold resolve_all. revert cache.
  induction names as [|a names IH]; intros cache Hs Hin Hr; [destruct Hin|].
  simpl. destruct (decide (a = n)) as [->|Hne].
  - apply resolutions_keep, get_table_caches.
    rewrite get_table_sound_result by exact Hs. exact Hr.
  - destruct Hin as [Heq|Hin]; [contradiction|].
    apply IH; [apply get_table_sound, Hs | exact Hin | exact Hr].
Qed.

(** X11.  Against an unchanged database, the cache grown from empty by
    resolving a list of names holds exactly the names of the list that the
    database reflects, each with its reflected table: the order and the
    repetitions of the resolutions do not matter, and no failure is ever
    remembered. *)
Theorem resolve_all_contents (db : Database) (names : list string)
    (n : string) (tbl : Table) :
  resolve_all db names ∅ !! n = Some tbl <->
  In n names /\ reflect db n = Ok tbl.
Proof.
  split.
  - intros H. split; [|apply (resolve_all_sound db names n tbl H)].
    unfold resolve_all in H.
    apply resolutions_origin in H as [H | (db' & Hin & _)].
    + rewrite lookup_empty in H. discriminate.
    + apply in_map_iff in Hin as (x & [= _ <-] & Hx). exact Hx.
  - intros [Hin Hr].
    apply resolve_all_complete; [apply cache_sound_empty | exact Hin | exact Hr].
Qed.

(** * Properties of the canned endpoints *)

(** ** Table discovery *)

Lemma get_table_unresolvable (db : Database) (name : string)
    (cache : gmap string Table) :
  unresolvable db cache name ->
  exists e, get_table db name cache = (Raise e, cache, [IOReflect name]).
Proof.
  intros [Hc Hr]. rewrite get_table_miss by exact Hc.
  destruct (reflect db name) as [t|e]; [discriminate|]. exists e. reflexivity.
Qed.

Lemma get_table_raise_unresolvable (db : Database) (name : string)
    (cache cache' : gmap string Table) (e : DBError) (io : list io_event) :
  get_table db name cache = (Raise e, cache', io) ->
  unresolvable db cache name /\ cache' = cache /\ io = [IOReflect name].
Proof.
  intros H. apply get_table_raise in H as (-> & Hc & Hr & ->).
  repeat split; [exact Hc | now rewrite Hr].
Qed.

Lemma find_table_none (db : Database) (cands : list string)
    (cache : gmap string Table) :
  Forall (unresolvable db cache) cands ->
  find_table db cands cache = (None, cache, List.map IOReflect cands).
Proof.
  induction 1 as [|name cands Hname _ IH]; [reflexivity|].
  simpl. destruct (get_table_unresolvable db name cache Hname) as [e ->].
  rewrite IH. reflexivity.
Qed.

Lemma find_table_some (db : Database) (pre : list string) (name : string)
    (post : list string) (cache cache' : gmap string Table) (tbl : Table)
    (io : list io_event) :
  Forall (unresolvable db cache) pre ->
  get_table db name cache = (Ok tbl, cache', io) ->
  find_table db (pre ++ name :: post) cache =
    (Some tbl, cache', List.map IOReflect pre ++ io).
Proof.
  intros Hpre Hg. induction Hpre as [|x pre Hx _ IH]; simpl.
  - now rewrite Hg.
  - destruct (get_table_unresolvable db x cache Hx) as [e ->].
    rewrite IH. reflexivity.
Qed.

(** The loop either runs out of candidates or stops at its first hit. *)
Lemma find_table_cases (db : Database) (cands : list string)
    (cache : gmap string Table) :
  Forall (unresolvable db cache) cands \/
  exists pre name post tbl cache' io,
    cands = pre ++ name :: post /\ Forall (unresolvable db cache) pre /\
    get_table db name cache = (Ok tbl, cache', io).
Proof.
  induction cands as [|name cands IH]; [left; constructor|].
  destruct (get_table db name cache) as [[[tbl|e] cache'] io] eqn:Hg.
  - right. exists [], name, cands, tbl, cache', io.
    repeat split; [constructor | exact Hg].
  - apply get_table_raise_unresolvable in Hg as (Hu & _ & _).
    destruct IH as [Hall | (pre & n & post & tbl & c' & io' & -> & Hpre & Hn)].
    + left. constructor; assumption.
    + right. exists (name :: pre), n, post, tbl, c', io'.
      repeat split; [constructor; assumption | exact Hn].
Qed.

(** X12.  The discovery loop returns the table of the first candidate that
    resolves: every candidate before it was tried and reflected without
    success; with no resolvable candidate it returns nothing, has reflected
    every candidate once, in order, and has left the cache as it was. *)
Theorem find_table_first_resolvable (db : Database) (cands : list string)
    (cache : gmap string Table) :
  match find_table db cands cache with
  | (None, cache', io) =>
      Forall (unresolvable db cache) cands /\ cache' = cache /\
      io = List.map IOReflect cands
  | (Some tbl, cache', io) =>
      exists pre name post io_hit,
        cands = pre ++ name :: post /\
        Forall (unresolvable db cache) pre /\
        get_table db name cache = (Ok tbl, cache', io_hit) /\
        io = List.map IOReflect pre ++ io_hit
  end.
Proof.
  destruct (find_table_cases db cands cache)
    as [Hall | (pre & n & post & tbl & c' & io' & -> & Hpre & Hn)].
  - rewrite find_table_none by exact Hall. repeat split. exact Hall.
  - rewrite (find_table_some db pre n post cache c' tbl io' Hpre Hn).
    exists pre, n, post, io'. repeat split; assumption.
Qed.

(** X13.  Failures are not remembered: when the loop has found a table,
    running it again over the cache it left, against the same database,
    finds the same table and changes nothing, but it reflects once more
    every candidate that precedes the one that resolved. *)
Theorem find_table_again (db : Database) (cands : list string)
    (cache : gmap string Table) (tbl : Table) :
  (find_table db cands cache).1.1 = Some tbl ->
  let cache' := (find_table db cands cache).1.2 in
  exists pre name post,
    cands = pre ++ name :: post /\
    find_table db cands cache' = (Some tbl, cache', List.map IOReflect pre).
Proof.
  intros Hfound cache'. subst cache'.
  destruct (find_table_cases db cands cache)
    as [Hall | (pre & n & post & t & c' & io' & -> & Hpre & Hn)].
  - rewrite find_table_none in Hfound by exact Hall. discriminate.
  - rewrite (find_table_some db pre n post cache c' t io' Hpre Hn) in *.
    cbn [fst snd] in *. injection Hfound as ->.
    exists pre, n, post. split; [reflexivity|].
    assert (Hhit : c' !! n = Some tbl).
    { pose proof (get_table_caches db n cache tbl) as H.
      rewrite Hn in H. apply H. reflexivity. }
    rewrite (find_table_some db pre n post c' c' tbl []).
    + now rewrite app_nil_r.
    + apply Forall_forall. intros x Hx.
      rewrite Forall_forall in Hpre. destruct (Hpre x Hx) as [Hc Hr].
      split; [|exact Hr].
      destruct (decide (x = n)) as [->|Hne].
      * apply (get_table_unresolvable db n cache) in Hpre as [e He];
          [|exact Hx]. rewrite Hn in He. discriminate.
      * pose proof (get_table_origin db n x cache) as Ho.
        rewrite Hn in Ho. cbn [fst snd] in Ho.
        destruct (c' !! x) as [t'|] eqn:Hcx; [|reflexivity].
        destruct (Ho t' eq_refl) as [H | [H _]]; congruence.
    + apply get_table_hit, Hhit.
Qed.

Lemma find_table_again_witness :
  (find_table orders_db ["sales"; "orders"; "vendas"] ∅).1.1 =
    Some orders_table /\
  exists pre name post,
    ["sales"; "orders"; "vendas"] = pre ++ name :: post /\
    find_table orders_db ["sales"; "orders"; "vendas"]
      (find_table orders_db ["sales"; "orders"; "vendas"] ∅).1.2 =
      (Some orders_table,
       (find_table orders_db ["sales"; "orders"; "vendas"] ∅).1.2,
       List.map IOReflect pre).
Proof.
  split; [reflexivity|].
  exact (find_table_again orders_db ["sales"; "orders"; "vendas"] ∅
           orders_table eq_refl).
Defined.

(** ** [top_products] *)

Lemma first_column_cases (tbl : Table) (names : list string) :
  match first_column tbl names with
  | None => Forall (fun n => c_get tbl n = None) names
  | Some c =>
      exists pre n post,
        names = pre ++ n :: post /\
        Forall (fun m => c_get tbl m = None) pre /\ c_get tbl n = Some c
  end.
Proof.
  induction names as [|n names IH]; simpl; [constructor|].
  unfold c_contains. destruct (c_get tbl n) as [c|] eqn:Hn.
  - exists [], n, names. repeat split; [constructor | exact Hn].
  - destruct (first_column tbl names) as [c|].
    + destruct IH as (pre & m & post & -> & Hpre & Hm).
      exists (n :: pre), m, post. repeat split; [constructor|]; assumption.
    + constructor; assumption.
Qed.

Lemma top_products_statement_limit (tbl : Table) (product_id : Column)
    (store_id : option Z) (channel : option string) (limit : Z) :
  limit_clause
    (ts_core (top_products_statement tbl product_id store_id channel limit)) =
    Some limit.
Proof.
  unfold top_products_statement.
  destruct store_id, (c_get tbl "store_id"), channel, (c_get tbl "channel");
    reflexivity.
Qed.

(** X14.  [top_products] raises an HTTP error only before any statement is
    handed to the database: a 404 exactly when no candidate table resolves,
    a 400 exactly when the first candidate that resolves has no [product_id]
    column, whatever the later candidates hold. *)
Theorem top_products_refusals (db : Database)
    (run : TopStatement -> result DBError (list Row))
    (store_id : option Z) (channel : option string) (limit : field Z)
    (cache : gmap string Table) (e : HTTPException) :
  (top_products db run store_id channel limit cache).1.1.1 = Raise (EHTTP e) <->
  (top_products db run store_id channel limit cache).2 = None /\
  match (find_table db ["sales"; "orders"; "vendas"] cache).1.1 with
  | None =>
      e = mkHTTPException 404
            "No sales table found. Edit table_candidates in code if needed."
  | Some tbl =>
      c_get tbl "product_id" = None /\
      e = mkHTTPException 400
            "sales table missing product_id column in this schema"
  end.
Proof.
  unfold top_products.
  destruct (find_table db ["sales"; "orders"; "vendas"] cache)
    as [[[tbl|] cache'] io]; cbn [fst snd].
  - destruct (c_get tbl "product_id") as [pid|]; cbn [fst snd].
    + split; [|intros [[=] _]].
      destruct (run _); discriminate.
    + split; [intros [= <-] | intros [_ [_ ->]]]; repeat split.
  - split; [intros [= <-] | intros [_ ->]]; repeat split.
Qed.

(** X15.  The statement of [top_products] selects [product_id], the row
    count as [qty] and, as [revenue], the sum of the first column present
    among [total], [total_price], [price], [valor], or of the literal [1]
    when the table has none of them; it groups by [product_id], orders by
    [qty] descending and always carries the limit it was given, zero
    included. *)
Theorem top_products_statement_shape (tbl : Table) (product_id : Column)
    (store_id : option Z) (channel : option string) (limit : Z) :
  let stmt := top_products_statement tbl product_id store_id channel limit in
  (exists revenue,
     sel_list (ts_core stmt) =
       [EColumn product_id; ELabel (EFunc "count" None) "qty";
        ELabel (EFunc "sum" (Some revenue)) "revenue"] /\
     ((revenue = EText "1" /\
       Forall (fun n => c_get tbl n = None)
         ["total"; "total_price"; "price"; "valor"]) \/
      (exists pre n post c,
         ["total"; "total_price"; "price"; "valor"] = pre ++ n :: post /\
         Forall (fun m => c_get tbl m = None) pre /\
         c_get tbl n = Some c /\ revenue = EColumn c))) /\
  group_by_clause (ts_core stmt) = [EColumn product_id] /\
  ts_order_by stmt = [Desc "qty"] /\
  limit_clause (ts_core stmt) = Some limit /\
  from_table (ts_core stmt) = tbl.
Proof.
  intros stmt. subst stmt. unfold top_products_statement.
  pose proof (first_column_cases tbl ["total"; "total_price"; "price"; "valor"])
    as Hfirst.
  destruct (first_column tbl ["total"; "total_price"; "price"; "valor"])
    as [c|].
  - destruct Hfirst as (pre & n & post & Hsplit & Hpre & Hn).
    split.
    + exists (EColumn c). split.
      * destruct store_id, (c_get tbl "store_id"), channel,
          (c_get tbl "channel"); reflexivity.
      * right. exists pre, n, post, c. repeat split; assumption.
    + destruct store_id, (c_get tbl "store_id"), channel,
        (c_get tbl "channel"); repeat split.
  - split.
    + exists (EText "1"). split.
      * destruct store_id, (c_get tbl "store_id"), channel,
          (c_get tbl "channel"); reflexivity.
      * left. split; [reflexivity | exact Hfirst].
    + destruct store_id, (c_get tbl "store_id"), channel,
        (c_get tbl "channel"); repeat split.
Qed.

(** X16.  [top_products] filters by [store_id] and by [channel] only when
    the parameter is given and the table has the column: a filter on a
    column the table lacks is dropped without an error.  The conditions
    hold no literal SQL, and their bound parameters are exactly the given
    values that were kept, store first. *)
Theorem top_products_filters (tbl : Table) (product_id : Column)
    (store_id : option Z) (channel : option string) (limit : Z) :
  let stmt := top_products_statement tbl product_id store_id channel limit in
  let kept_store :=
    match store_id, c_get tbl "store_id" with
    | Some v, Some col => [(col, VInt v)]
    | _, _ => []
    end in
  let kept_channel :=
    match channel, c_get tbl "channel" with
    | Some v, Some col => [(col, VStr v)]
    | _, _ => []
    end in
  where_clauses (ts_core stmt) =
    List.map (fun p => EBinary op_eq (EColumn (fst p)) (EBind (snd p)))
      (kept_store ++ kept_channel) /\
  flat_map text_fragments (where_clauses (ts_core stmt)) = [] /\
  flat_map bound_values (where_clauses (ts_core stmt)) =
    List.map snd (kept_store ++ kept_channel).
Proof.
  intros stmt kept_store kept_channel. subst stmt kept_store kept_channel.
  unfold top_products_statement.
  destruct store_id, (c_get tbl "store_id"), channel, (c_get tbl "channel");
    repeat split.
Qed.

(** X17.  A statement of [top_products] that fails in the database is not
    turned into an [HTTPException]: the driver's exception leaves the
    handler as it is; and this is the only way such an exception leaves
    it.  The cache and the reflections are those of the discovery loop
    either way. *)
Theorem top_products_unhandled (db : Database)
    (run : TopStatement -> result DBError (list Row))
    (store_id : option Z) (channel : option string) (limit : field Z)
    (cache : gmap string Table) (err : DBError) :
  let out := top_products db run store_id channel limit cache in
  (out.1.1.1 = Raise (EUnhandled err) <->
   exists stmt, out.2 = Some stmt /\ run stmt = Raise err) /\
  out.1.1.2 = (find_table db ["sales"; "orders"; "vendas"] cache).1.2 /\
  out.1.2 = (find_table db ["sales"; "orders"; "vendas"] cache).2.
Proof.
  intros out. subst out. unfold top_products.
  destruct (find_table db ["sales"; "orders"; "vendas"] cache)
    as [[[tbl|] cache'] io]; cbn [fst snd].
  - destruct (c_get tbl "product_id") as [pid|]; cbn [fst snd].
    + repeat split.
      * destruct (run _) eqn:Hrun; [discriminate|].
        intros [= <-]. eexists. split; [reflexivity | exact Hrun].
      * intros (stmt & [= <-] & ->). reflexivity.
    + repeat split; [discriminate | intros (stmt & [=] & _)].
  - repeat split; [discriminate | intros (stmt & [=] & _)].
Qed.

(** X18.  The statement [top_products] runs uses the default limit 10 when
    none is given, and any given limit as it is: unlike [query], a limit of
    zero is not dropped. *)
Theorem top_products_limit (db : Database)
    (run : TopStatement -> result DBError (list Row))
    (store_id : option Z) (channel : option string) (limit : field Z)
    (cache : gmap string Table) (stmt : TopStatement) :
  (top_products db run store_id channel limit cache).2 = Some stmt ->
  limit_clause (ts_core stmt) =
    Some (match limit with
          | Omitted => 10
          | Given n => n
          end).
Proof.
  unfold top_products.
  destruct (find_table db ["sales"; "orders"; "vendas"] cache)
    as [[[tbl|] cache'] io]; cbn [fst snd]; [|discriminate].
  destruct (c_get tbl "product_id") as [pid|]; cbn [fst snd]; [|discriminate].
  intros [= <-].
  rewrite top_products_statement_limit. destruct limit; reflexivity.
Qed.

Lemma top_products_limit_witness :
  (top_products orders_db (fun _ => Ok []) (Some 7) (Some "web") (Given 0) ∅).2
    = Some (top_products_statement orders_table
              (mkColumn "product_id" "INTEGER") (Some 7) (Some "web") 0) /\
  limit_clause
    (ts_core (top_products_statement orders_table
                (mkColumn "product_id" "INTEGER") (Some 7) (Some "web") 0)) =
    Some 0 /\
  where_clauses
    (ts_core (top_products_statement orders_table
                (mkColumn "product_id" "INTEGER") (Some 7) (Some "web") 0)) =
    [EBinary op_eq (EColumn (mkColumn "channel" "VARCHAR")) (EBind (VStr "web"))].
Proof.
  split; [reflexivity|]. split; [|reflexivity].
  exact (top_products_limit orders_db (fun _ => Ok []) (Some 7) (Some "web")
           (Given 0) ∅ _ eq_refl).
Defined.

(** ** [repeat_customers] *)

Lemma uint_chars (d : Decimal.uint) :
  forallb is_sign_or_digit
    (list_ascii_of_string (NilEmpty.string_of_uint d)) = true.
Proof. induction d; simpl; [reflexivity | exact IHd ..]. Qed.

(** [str(n)] is made of decimal digits and at most a minus sign. *)
Lemma int_str_chars (n : Z) :
  forallb is_sign_or_digit (list_ascii_of_string (int_str n)) = true.
Proof.
  unfold int_str, NilZero.string_of_int, NilZero.string_of_uint.
  destruct (Z.to_int n) as [d|d]; destruct d; simpl; try reflexivity;
    apply uint_chars.
Qed.

(** X19.  [repeat_customers] raises an HTTP error only before any statement
    is handed to the database: a 404 exactly when no candidate table
    resolves, a 400 exactly when the first candidate that resolves lacks
    [customer_id] or [created_at]. *)
Theorem repeat_customers_refusals (db : Database)
    (run : RepeatStatement -> result DBError (list Row))
    (min_purchases days_since : field Z) (cache : gmap string Table)
    (e : HTTPException) :
  (repeat_customers db run min_purchases days_since cache).1.1.1 =
    Raise (EHTTP e) <->
  (repeat_customers db run min_purchases days_since cache).2 = None /\
  match (find_table db ["sales"; "orders"; "vendas"] cache).1.1 with
  | None =>
      e = mkHTTPException 404
            "No sales/orders table found; edit table_candidates in code if needed"
  | Some tbl =>
      (c_get tbl "customer_id" = None \/ c_get tbl "created_at" = None) /\
      e = mkHTTPException 400
            "schema must have customer_id and created_at on the sales table for this endpoint"
  end.
Proof.
  unfold repeat_customers.
  destruct (find_table db ["sales"; "orders"; "vendas"] cache)
    as [[[tbl|] cache'] io]; cbn [fst snd].
  - destruct (c_get tbl "customer_id") as [cid|];
      [destruct (c_get tbl "created_at") as [cat|]|]; cbn [fst snd].
    + split; [|intros [[=] _]]. destruct (run _); discriminate.
    + split; [intros [= <-] | intros [_ [_ ->]]]; repeat split.
      right. reflexivity.
    + split; [intros [= <-] | intros [_ [_ ->]]]; repeat split.
      left. reflexivity.
  - split; [intros [= <-] | intros [_ ->]]; repeat split.
Qed.

(** X20.  In the statement [repeat_customers] runs, the only literal SQL is
    the interval [interval '<days> days'], where [<days>] is the decimal
    text of the integer [days_since] (30 by default): digits and at most a
    minus sign, so no quote.  Its bound parameters are [min_purchases]
    (3 by default), in the subquery's [having], and the limit 1000. *)
Theorem repeat_customers_statement_text (db : Database)
    (run : RepeatStatement -> result DBError (list Row))
    (min_purchases days_since : field Z) (cache : gmap string Table)
    (stmt : RepeatStatement) :
  (repeat_customers db run min_purchases days_since cache).2 = Some stmt ->
  let days := field_default 30 days_since in
  repeat_text_fragments stmt = ["interval '" +:+ int_str days +:+ " days'"] /\
  forallb is_sign_or_digit (list_ascii_of_string (int_str days)) = true /\
  repeat_bound_values stmt =
    [VInt (field_default 3 min_purchases); VInt 1000] /\
  sq_having (rs_from stmt) =
    [EBinary op_ge (EFunc "count" None)
       (EBind (VInt (field_default 3 min_purchases)))] /\
  rs_limit stmt = Some 1000.
Proof.
  unfold repeat_customers.
  destruct (find_table db ["sales"; "orders"; "vendas"] cache)
    as [[[tbl|] cache'] io]; cbn [fst snd]; [|discriminate].
  destruct (c_get tbl "customer_id") as [cid|]; [|discriminate].
  destruct (c_get tbl "created_at") as [cat|]; [|discriminate].
  cbn [fst snd]. intros [= <-]. cbv zeta.
  split; [reflexivity|]. split; [apply int_str_chars|].
  split; [reflexivity|]. split; reflexivity.
Qed.

Lemma repeat_customers_statement_text_witness :
  (repeat_customers orders_db (fun _ => Ok []) Omitted (Given (-7)) ∅).2 =
    Some (repeat_customers_statement orders_table
            (mkColumn "customer_id" "INTEGER")
            (mkColumn "created_at" "TIMESTAMP") 3 (-7)) /\
  repeat_text_fragments
    (repeat_customers_statement orders_table
       (mkColumn "customer_id" "INTEGER")
       (mkColumn "created_at" "TIMESTAMP") 3 (-7)) = ["interval '-7 days'"].
Proof.
  split; [reflexivity|].
  exact (proj1 (repeat_customers_statement_text orders_db (fun _ => Ok [])
                  Omitted (Given (-7)) ∅ _ eq_refl)).
Defined.
